(** * Distributed-data-parallel accelerator backends

    A shallow embedding of [pytorch_lightning/accelerators/ddp_backend.py]
    ([DDPBackend], one process per device) and
    [pytorch_lightning/accelerators/ddp2_backend.py] ([DDP2Backend], one
    process per node), followed by the properties of rank resolution,
    process spawning, device binding, the early-stop vote and the fit-end
    state transfer.

    Python integers are unbounded and are modelled by [Z]; [os.environ] is a
    finite map from strings to strings; strings are sequences of one-byte
    characters.  A method is a function from the state of the process to
    the new state and either the value returned or the exception raised.
    Calls into the model, the trainer and the libraries ([init_ddp_connection],
    [configure_ddp], [subprocess.Popen], [atomic_save], the queue, ...) are
    recorded in a trace in program order and are taken to return normally;
    [assert] statements are taken to be enabled. *)

From Stdlib Require Import ZArith String Ascii List Bool Lia.
From stdpp Require Import base option list strings gmap pretty.

Local Open Scope string_scope.
Local Open Scope Z_scope.

(** ** Python primitives used by the two backends *)

Module Py.

(** Exceptions that the modelled code can raise. *)
Inductive Exc : Type :=
| AssertionError
| RuntimeError (msg : string)
| KeyError (key : string)
| ValueError
| IndexError
| TypeError
| MisconfigurationException (msg : string).

(** An opaque Python object (the result payload of the train loop),
    known only by its identity. *)
Inductive Object : Type := Obj (id : N).

(** [s.split(',')]: always at least one field. *)
Fixpoint split_comma (s : string) : list string :=
  match s with
  | EmptyString => [EmptyString]
  | String c r =>
      if Ascii.eqb c "," then EmptyString :: split_comma r
      else match split_comma r with
           | h :: t => String c h :: t
           | [] => [String c EmptyString]
           end
  end.

(** [len(s)] *)
Definition len (s : string) : Z := Z.of_nat (String.length s).

(** [str(n)] and [f'{n}'] for an integer. *)
Definition str (n : Z) : string := pretty n.

(** [l[i]] on a list: negative indices count from the end, anything out
    of range raises [IndexError]. *)
Definition getitem {A : Type} (l : list A) (i : Z) : Exc + A :=
  let n := Z.of_nat (length l) in
  let j := if i <? 0 then i + n else i in
  if (0 <=? j) && (j <? n) then
    match l !! Z.to_nat j with
    | Some x => inr x
    | None => inl IndexError
    end
  else inl IndexError.

(** [os.environ[k]]: raises [KeyError] when the variable is unset. *)
Definition environ_getitem (env : gmap string string) (k : string) : Exc + string :=
  match env !! k with
  | Some v => inr v
  | None => inl (KeyError k)
  end.

(** [os.environ.get(k, d)] *)
Definition environ_get (env : gmap string string) (k d : string) : string :=
  default d (env !! k).

(** *** [int(s)] for a string

    Decimal literal: surrounding whitespace (tab, line feed, vertical
    tab, form feed, carriage return, space) is stripped, one optional
    sign, then digits in which single underscores may separate digits.
    Digits outside ASCII are not part of this model. *)

Definition is_space (c : ascii) : bool :=
  let n := nat_of_ascii c in
  ((9 <=? n) && (n <=? 13) || (n =? 32))%nat.

Definition digit_of (c : ascii) : option Z :=
  let n := nat_of_ascii c in
  if ((48 <=? n) && (n <=? 57))%nat then Some (Z.of_nat n - 48) else None.

Fixpoint lstrip (s : string) : string :=
  match s with
  | String c r => if is_space c then lstrip r else s
  | EmptyString => EmptyString
  end.

(** Drops trailing whitespace. *)
Fixpoint rstrip (s : string) : string :=
  match s with
  | EmptyString => EmptyString
  | String c r =>
      match rstrip r with
      | EmptyString => if is_space c then EmptyString else String c EmptyString
      | r' => String c r'
      end
  end.

(** [digits acc after_digit s]: reads the digit groups; [after_digit]
    tells whether the previous character was a digit, which is when an
    underscore or the end of the literal is allowed. *)
Fixpoint digits (acc : Z) (after_digit : bool) (s : string) : option Z :=
  match s with
  | EmptyString => if after_digit then Some acc else None
  | String c r =>
      match digit_of c with
      | Some d => digits (10 * acc + d) true r
      | None =>
          if Ascii.eqb c "_" && after_digit then digits acc false r else None
      end
  end.

Definition int (s : string) : Exc + Z :=
  let body := rstrip (lstrip s) in
  let parsed :=
    match body with
    | String "-" r => Z.opp <$> digits 0 false r
    | String "+" r => digits 0 false r
    | _ => digits 0 false body
    end in
  match parsed with
  | Some n => inr n
  | None => inl ValueError
  end.

(** *** [re.sub('.ckpt', '.tmp_end.ckpt', s)]

    The pattern is the regular expression [.ckpt]: any character other
    than a newline, followed by the four letters.  Every non-overlapping
    match, leftmost first, is replaced.  [skip] counts the characters of
    the current match that are still to be consumed. *)

Definition starts_with_ckpt (s : string) : bool :=
  match s with
  | String "c" (String "k" (String "p" (String "t" _))) => true
  | _ => false
  end.

Fixpoint re_sub_ckpt_from (skip : nat) (s : string) : string :=
  match s with
  | EmptyString => EmptyString
  | String c r =>
      match skip with
      | S k => re_sub_ckpt_from k r
      | O =>
          if negb (Ascii.eqb c "010") && starts_with_ckpt r
          then ".tmp_end.ckpt" +:+ re_sub_ckpt_from 4 r
          else String c (re_sub_ckpt_from 0 r)
      end
  end.

Definition re_sub_ckpt (s : string) : string := re_sub_ckpt_from 0 s.

(** [range(a, b)] *)
Definition range (a b : Z) : list Z := seqZ a (b - a).

End Py.

(** ** Values, events and the state of one process *)

(** What is put on the inter-process queue: [None], a path, or the result
    payload. *)
Inductive Value : Type :=
| VNone
| VStr (s : string)
| VObj (o : Py.Object).

(** A [multiprocessing] queue, known by its identity. *)
Inductive Queue : Type := SimpleQueue (id : N).

(** [AMPType] of [pytorch_lightning.utilities]. *)
Inductive AMPType : Type := APEX | NATIVE.

(** The handle returned by [subprocess.Popen(command, env=env_copy, cwd=cwd)]. *)
Record Process : Type := Popen {
  args : list string;
  env : gmap string string;
  cwd : option string;
}.

(** The checkpoint callback, of which only [best_model_path] is read. *)
Record ModelCheckpoint : Type := {
  best_model_path : option string;
}.

(** Calls to collaborators outside the two files, in program order.
    [Sleep] is the randomized delay after each [Popen]; [RankZeroWarn] is
    the call of [rank_zero_warn], shown or not. *)
Inductive Event : Type :=
| Spawn (p : Process)
| Sleep
| ProgressBarDisable
| InitDDPConnection (global_rank world_size : Z) (is_slurm_managing_tasks : bool)
| CallSetupHook
| ConfigureSyncBatchnorm
| CudaSetDevice (gpu : Z)
| ModelCuda (gpu : Z)
| InitOptimizers
| CopyTrainerModelProperties
| ConfigureApex
| ReinitSchedulerProperties
| ConfigureDDP (device_ids : option (list (option Z)))
| SetupTraining
| TrainOrTest
| RankZeroWarn (msg : string)
| QueuePut (q : Queue) (v : Value)
| AtomicSave (path : string)
| CudaEmptyCache.

(** The attributes of the trainer on which the control flow of the
    backends depends, and the attributes they assign from values of their
    own ([local_rank], [global_rank], [world_size], [root_gpu],
    [interactive_ddp_procs]).  Fields that the train loop maintains
    ([checkpoint_callback], [testing], [should_stop]) hold the values the
    backends find when they read them.  Not represented are the attributes
    that only store objects received from collaborators and handed back to
    them: [model], assigned by [setup], and [optimizers], [lr_schedulers]
    and [optimizer_frequencies], assigned by [ddp_train]; nothing below
    speaks about them. *)
Record Trainer : Type := {
  global_rank : Z;
  local_rank : Z;
  node_rank : Z;
  world_size : Z;
  num_nodes : Z;
  num_processes : Z;
  is_slurm_managing_tasks : bool;
  on_gpu : bool;
  root_gpu : option Z;
  data_parallel_device_ids : option (list Z);
  distributed_backend : string;
  testing : bool;
  should_stop : bool;
  checkpoint_callback : option ModelCheckpoint;
  progress_bar_callback : bool;
  sync_batchnorm : bool;
  amp_backend : option AMPType;
  interactive_ddp_procs : list Process;
}.

Definition set_ranks (lr gr ws : Z) (t : Trainer) : Trainer :=
  {| global_rank := gr; local_rank := lr; node_rank := node_rank t;
     world_size := ws; num_nodes := num_nodes t;
     num_processes := num_processes t;
     is_slurm_managing_tasks := is_slurm_managing_tasks t;
     on_gpu := on_gpu t; root_gpu := root_gpu t;
     data_parallel_device_ids := data_parallel_device_ids t;
     distributed_backend := distributed_backend t; testing := testing t;
     should_stop := should_stop t;
     checkpoint_callback := checkpoint_callback t;
     progress_bar_callback := progress_bar_callback t;
     sync_batchnorm := sync_batchnorm t; amp_backend := amp_backend t;
     interactive_ddp_procs := interactive_ddp_procs t |}.

Definition set_root_gpu (g : Z) (t : Trainer) : Trainer :=
  {| global_rank := global_rank t; local_rank := local_rank t;
     node_rank := node_rank t; world_size := world_size t;
     num_nodes := num_nodes t; num_processes := num_processes t;
     is_slurm_managing_tasks := is_slurm_managing_tasks t;
     on_gpu := on_gpu t; root_gpu := Some g;
     data_parallel_device_ids := data_parallel_device_ids t;
     distributed_backend := distributed_backend t; testing := testing t;
     should_stop := should_stop t;
     checkpoint_callback := checkpoint_callback t;
     progress_bar_callback := progress_bar_callback t;
     sync_batchnorm := sync_batchnorm t; amp_backend := amp_backend t;
     interactive_ddp_procs := interactive_ddp_procs t |}.

Definition set_interactive_ddp_procs (ps : list Process) (t : Trainer) : Trainer :=
  {| global_rank := global_rank t; local_rank := local_rank t;
     node_rank := node_rank t; world_size := world_size t;
     num_nodes := num_nodes t; num_processes := num_processes t;
     is_slurm_managing_tasks := is_slurm_managing_tasks t;
     on_gpu := on_gpu t; root_gpu := root_gpu t;
     data_parallel_device_ids := data_parallel_device_ids t;
     distributed_backend := distributed_backend t; testing := testing t;
     should_stop := should_stop t;
     checkpoint_callback := checkpoint_callback t;
     progress_bar_callback := progress_bar_callback t;
     sync_batchnorm := sync_batchnorm t; amp_backend := amp_backend t;
     interactive_ddp_procs := ps |}.

(** What the interpreter and the libraries outside the two files supply:
    [sys.executable], [os.path.abspath], the port found by
    [find_free_network_port()], hydra's path helpers where hydra is
    installed ([to_absolute_path] may raise), and the payload that
    [self.train_or_test()] returns. *)
Record Host : Type := {
  sys_executable : string;
  abspath : string -> string;
  find_free_network_port : Z;
  HYDRA_AVAILABLE : bool;
  to_absolute_path : string -> Py.Exc + string;
  HydraConfig_initialized : bool;
  get_original_cwd : string;
  train_or_test : Value;
}.

(** The state of one Python process: the backend object [self] of type
    [B], [os.environ], [sys.argv], the trainer, and the collaborator calls
    made so far (oldest first). *)
Record State (B : Type) : Type := {
  self : B;
  os_environ : gmap string string;
  sys_argv : list string;
  trainer : Trainer;
  trace : list Event;
}.
Arguments self {B} _.
Arguments os_environ {B} _.
Arguments sys_argv {B} _.
Arguments trainer {B} _.
Arguments trace {B} _.

(** ** State and exception monad *)

Definition M (B A : Type) : Type := State B -> State B * (Py.Exc + A).

Definition ret {B A : Type} (a : A) : M B A := fun s => (s, inr a).

Definition bind {B A C : Type} (m : M B A) (k : A -> M B C) : M B C :=
  fun s =>
    match m s with
    | (s', inr a) => k a s'
    | (s', inl e) => (s', inl e)
    end.

Definition raise {B A : Type} (e : Py.Exc) : M B A := fun s => (s, inl e).

(** Lifts the outcome of a pure but fallible primitive. *)
Definition lift {B A : Type} (r : Py.Exc + A) : M B A := fun s => (s, r).

Definition get {B : Type} : M B (State B) := fun s => (s, inr s).

Definition modify {B : Type} (f : State B -> State B) : M B unit :=
  fun s => (f s, inr tt).

Declare Scope py_scope.
Delimit Scope py_scope with py.
Notation "x <- m ;; k" := (bind m (fun x => k))
  (at level 100, m at next level, right associativity) : py_scope.
Notation "m ;;; k" := (bind m (fun _ => k))
  (at level 100, right associativity) : py_scope.
Local Open Scope py_scope.

Definition when {B : Type} (c : bool) (m : M B unit) : M B unit :=
  if c then m else ret tt.

(** [for x in xs: body x] *)
Fixpoint for_each {B A : Type} (xs : list A) (body : A -> M B unit) : M B unit :=
  match xs with
  | [] => ret tt
  | x :: rest => body x ;;; for_each rest body
  end.

Definition set_self {B : Type} (b : B) (s : State B) : State B :=
  {| self := b; os_environ := os_environ s; sys_argv := sys_argv s;
     trainer := trainer s; trace := trace s |}.

Definition set_environ {B : Type} (e : gmap string string) (s : State B) : State B :=
  {| self := self s; os_environ := e; sys_argv := sys_argv s;
     trainer := trainer s; trace := trace s |}.

Definition set_argv {B : Type} (a : list string) (s : State B) : State B :=
  {| self := self s; os_environ := os_environ s; sys_argv := a;
     trainer := trainer s; trace := trace s |}.

Definition set_trainer {B : Type} (t : Trainer) (s : State B) : State B :=
  {| self := self s; os_environ := os_environ s; sys_argv := sys_argv s;
     trainer := t; trace := trace s |}.

Definition set_trace {B : Type} (tr : list Event) (s : State B) : State B :=
  {| self := self s; os_environ := os_environ s; sys_argv := sys_argv s;
     trainer := trainer s; trace := tr |}.

(** [os.environ[k] = v] *)
Definition setenv {B : Type} (k v : string) : M B unit :=
  modify (fun s => set_environ (<[k := v]> (os_environ s)) s).

(** A call to a collaborator, recorded in the trace. *)
Definition emit {B : Type} (e : Event) : M B unit :=
  modify (fun s => set_trace (trace s ++ [e]) s).

Definition update_trainer {B : Type} (f : Trainer -> Trainer) : M B unit :=
  modify (fun s => set_trainer (f (trainer s)) s).

(** ** Helpers on strings *)

(** [s.lower()] on ASCII letters. *)
Definition lower_char (c : ascii) : ascii :=
  let n := nat_of_ascii c in
  if ((65 <=? n) && (n <=? 90))%nat then ascii_of_nat (n + 32) else c.

Fixpoint lower (s : string) : string :=
  match s with
  | EmptyString => EmptyString
  | String c r => String (lower_char c) (lower r)
  end.

(** [s in l] for a list of strings. *)
Definition str_in (s : string) (l : list string) : bool :=
  existsb (String.eqb s) l.

(** A path or [None] as a queue message. *)
Definition path_value (p : option string) : Value :=
  match p with
  | Some s => VStr s
  | None => VNone
  end.

(** [try: a except Exception: handler] on pure fallible expressions. *)
Definition try_except {A : Type} (a handler : Py.Exc + A) : Py.Exc + A :=
  match a with
  | inr x => inr x
  | inl _ => handler
  end.

Definition and_then {A C : Type} (a : Py.Exc + A) (k : A -> Py.Exc + C) : Py.Exc + C :=
  match a with
  | inr x => k x
  | inl e => inl e
  end.

(** ** Methods that are the same, line for line, in both backends *)

(** [int(self.trainer.should_stop)] *)
Definition int_of_bool (b : bool) : Z := if b then 1 else 0.

(** [dist.all_reduce(stop, op=SUM)]: afterwards every process of the group
    holds the sum of the contributions of all of them. *)
Definition all_reduce_sum (contributions : list Z) : Z :=
  foldr Z.add 0 contributions.

(** [early_stopping_should_stop] (ddp_backend.py 286-291, ddp2_backend.py
    207-212) as run by the process with trainer [t], where [group] lists
    the trainers of all the processes of the process group that take part
    in the reduction, [t] among them. *)
Definition early_stopping_should_stop (group : list Trainer) (t : Trainer) : bool :=
  let stop := all_reduce_sum (map (fun p => int_of_bool (should_stop p)) group) in
  stop =? world_size t.

(** [transfer_distrib_spawn_state_on_fit_end] (ddp_backend.py 293-313,
    ddp2_backend.py 214-234). *)
Definition transfer_distrib_spawn_state_on_fit_end {B : Type}
    (mp_queue : option Queue) (results : Value) : M B unit :=
  s <- get ;;
  let t := trainer s in
  if negb (str_in (lower (distributed_backend t)) ["ddp_spawn"; "ddp_cpu"; "tpu"])
  then ret tt
  else
    let best :=
      match checkpoint_callback t with
      | Some cb => best_model_path cb
      | None => None
      end in
    match mp_queue with
    | Some q =>
        if global_rank t =? 0 then
          emit (RankZeroWarn "cleaning up ddp environment...") ;;;
          emit (QueuePut q (path_value best)) ;;;
          emit (QueuePut q results) ;;;
          last_path <-
            match best with
            | Some p =>
                if negb (testing t) && (0 <? Py.len p) then
                  let last_path := Py.re_sub_ckpt p in
                  emit (AtomicSave last_path) ;;;
                  ret (Some last_path)
                else ret None
            | None => ret None
            end ;;
          emit (QueuePut q (path_value last_path))
        else ret tt
    | None => ret tt
    end.

(** The block under [# MODEL] of [ddp_train] (ddp_backend.py 200-215,
    ddp2_backend.py 119-134). *)
Definition bind_device {B : Type} (process_idx : Z) (is_master : bool) : M B unit :=
  s <- get ;;
  if on_gpu (trainer s) then
    gpu_idx <-
      (if is_master then
         v <- lift (Py.environ_getitem (os_environ s) "CUDA_VISIBLE_DEVICES") ;;
         let available_gpus := Py.split_comma v in
         g <- lift (Py.getitem available_gpus (local_rank (trainer s))) ;;
         lift (Py.int g)
       else ret process_idx) ;;
    update_trainer (set_root_gpu gpu_idx) ;;;
    emit (CudaSetDevice gpu_idx) ;;;
    emit (ModelCuda gpu_idx)
  else ret tt.

(** The blocks under [# CHOOSE OPTIMIZER] and [# AMP] of [ddp_train]
    (ddp_backend.py 217-231, ddp2_backend.py 136-150): the collaborator
    calls in order.  The objects they return are stored in
    [trainer.optimizers], [trainer.lr_schedulers] and
    [trainer.optimizer_frequencies], which the record [Trainer] leaves
    out. *)
Definition choose_optimizer {B : Type} : M B unit :=
  emit InitOptimizers ;;;
  emit CopyTrainerModelProperties ;;;
  s <- get ;;
  match amp_backend (trainer s) with
  | Some APEX => emit ConfigureApex ;;; emit ReinitSchedulerProperties
  | _ => ret tt
  end.

(** The first lines of [ddp_train] up to the rank assignment: the
    progress bar stays on only for node 0, process 0. *)
Definition progress_bar_only_on_rank_0 {B : Type} (process_idx : Z) : M B unit :=
  s <- get ;;
  when ((negb (node_rank (trainer s) =? 0) || negb (process_idx =? 0))
        && progress_bar_callback (trainer s))
       (emit ProgressBarDisable).

(** [model.init_ddp_connection(global_rank, world_size, is_slurm_managing_tasks)]
    followed by [call_setup_hook]. *)
Definition connect {B : Type} : M B unit :=
  s <- get ;;
  emit (InitDDPConnection (global_rank (trainer s)) (world_size (trainer s))
          (is_slurm_managing_tasks (trainer s))) ;;;
  emit CallSetupHook.

(** ** [DDPBackend] (ddp_backend.py) *)

Module DDP.

Record Backend : Type := {
  task_idx : option Z;
  _has_spawned_children : bool;
  mode : string;
}.

(** [__init__] *)
Definition init (mode : string) : Backend :=
  {| task_idx := None; _has_spawned_children := false; mode := mode |}.

Definition set_task_idx (i : Z) : M Backend unit :=
  modify (fun s =>
    set_self {| task_idx := Some i;
                _has_spawned_children := _has_spawned_children (self s);
                mode := mode (self s) |} s).

Definition set_has_spawned_children (b : bool) : M Backend unit :=
  modify (fun s =>
    set_self {| task_idx := task_idx (self s);
                _has_spawned_children := b;
                mode := mode (self s) |} s).

Definition __slurm_setup : M Backend unit :=
  s <- get ;;
  v <- lift (Py.environ_getitem (os_environ s) "SLURM_LOCALID") ;;
  n <- lift (Py.int v) ;;
  set_task_idx n.

Definition __torchelastic_setup : M Backend unit :=
  s <- get ;;
  v <- lift (Py.environ_getitem (os_environ s) "LOCAL_RANK") ;;
  n <- lift (Py.int v) ;;
  set_task_idx n.

Definition reentry_message : string :=
  "You tried to run `.fit` or `.test` multiple times in the same script."
  +:+ " This is not supported in DDP mode, switch to `distributed_backend='ddp_spawn'` instead.".

Definition _check_can_spawn_children : M Backend unit :=
  s <- get ;;
  if _has_spawned_children (self s)
  then raise (Py.RuntimeError reentry_message)
  else ret tt.

(** The body of the [for local_rank in range(1, num_processes)] loop. *)
Definition spawn_child (h : Host) (command : list string) (local_rank : Z) : M Backend unit :=
  s <- get ;;
  let env_copy := os_environ s in
  let env_copy := <["LOCAL_RANK" := Py.str local_rank]> env_copy in
  let cwd :=
    if HYDRA_AVAILABLE h && HydraConfig_initialized h
    then Some (get_original_cwd h) else None in
  let proc := Popen command env_copy cwd in
  emit (Spawn proc) ;;;
  update_trainer (fun t =>
    set_interactive_ddp_procs (interactive_ddp_procs t ++ [proc]) t) ;;;
  emit Sleep.

Definition __ddp_script_mode_setup (h : Host) : M Backend unit :=
  s <- get ;;
  (if global_rank (trainer s) =? 0 then ret tt else raise Py.AssertionError) ;;;
  _check_can_spawn_children ;;;
  set_has_spawned_children true ;;;

  s <- get ;;
  setenv "MASTER_ADDR" (Py.environ_get (os_environ s) "MASTER_ADDR" "127.0.0.1") ;;;
  s <- get ;;
  setenv "MASTER_PORT"
    (Py.environ_get (os_environ s) "MASTER_PORT" (Py.str (find_free_network_port h))) ;;;

  s <- get ;;
  let node_rank := "0" in
  let node_rank := Py.environ_get (os_environ s) "NODE_RANK" node_rank in
  let node_rank := Py.environ_get (os_environ s) "GROUP_RANK" node_rank in
  setenv "NODE_RANK" node_rank ;;;
  setenv "LOCAL_RANK" "0" ;;;

  let path_lib :=
    if negb (HYDRA_AVAILABLE h) then (fun p => inr (abspath h p))
    else to_absolute_path h in
  s <- get ;;
  let command := sys_argv s in
  full_path <-
    lift (try_except
            (and_then (Py.getitem command 0) path_lib)
            (and_then (Py.getitem command 0) (fun c0 => inr (abspath h c0)))) ;;
  modify (set_argv (<[0%nat := full_path]> command)) ;;;
  s <- get ;;
  let command := sys_executable h :: sys_argv s in

  let gpu_ids := Py.environ_get (os_environ s) "CUDA_VISIBLE_DEVICES" "" in
  let gpu_ids := if Py.len gpu_ids =? 1 then gpu_ids +:+ "," else gpu_ids in
  let num_gpus := Z.max 1 (Z.of_nat (length (Py.split_comma gpu_ids))) in
  setenv "PL_TRAINER_GPUS" gpu_ids ;;;
  setenv "WORLD_SIZE" (Py.str (num_gpus * num_nodes (trainer s))) ;;;

  update_trainer (set_interactive_ddp_procs []) ;;;
  for_each (Py.range 1 (num_processes (trainer s))) (spawn_child h command) ;;;
  set_task_idx 0.

(** [setup], without the final [self.trainer.model = model]. *)
Definition setup (h : Host) : M Backend unit :=
  s <- get ;;
  if String.eqb (mode (self s)) "ddp" then __ddp_script_mode_setup h
  else if String.eqb (mode (self s)) "slurm_ddp" then __slurm_setup
  else if String.eqb (mode (self s)) "torchelastic_ddp" then __torchelastic_setup
  else ret tt.

(** [ddp_train]; the value returned is [VNone] where the Python function
    falls off its end.  The train loop is a collaborator: it contributes
    its result payload [train_or_test h]. *)
Definition ddp_train (h : Host) (process_idx : Z) (mp_queue : option Queue)
    (is_master : bool) (proc_offset : Z) : M Backend Value :=
  let process_idx := process_idx + proc_offset in
  progress_bar_only_on_rank_0 process_idx ;;;
  update_trainer (fun t =>
    set_ranks process_idx
              (node_rank t * num_processes t + process_idx)
              (num_nodes t * num_processes t) t) ;;;
  connect ;;;
  s <- get ;;
  when (sync_batchnorm (trainer s)) (emit ConfigureSyncBatchnorm) ;;;
  bind_device process_idx is_master ;;;
  choose_optimizer ;;;
  s <- get ;;
  let device_ids :=
    if String.eqb (distributed_backend (trainer s)) "ddp"
       || String.eqb (distributed_backend (trainer s)) "ddp_spawn"
    then Some [root_gpu (trainer s)] else None in
  emit (ConfigureDDP device_ids) ;;;
  emit SetupTraining ;;;
  emit TrainOrTest ;;;
  let results := train_or_test h in
  transfer_distrib_spawn_state_on_fit_end mp_queue results ;;;
  emit CudaEmptyCache ;;;
  s <- get ;;
  if (global_rank (trainer s) =? 0)
     && negb (str_in (distributed_backend (trainer s)) ["ddp_spawn"; "ddp_cpu"])
  then ret results
  else ret VNone.

(** [del os.environ['WORLD_SIZE']] *)
Definition del_WORLD_SIZE : M Backend unit :=
  s <- get ;;
  match os_environ s !! "WORLD_SIZE" with
  | Some _ => modify (set_environ (delete "WORLD_SIZE" (os_environ s)))
  | None => raise (Py.KeyError "WORLD_SIZE")
  end.

(** [self.task_idx] as the [process_idx] argument: adding [proc_offset]
    to [None] is a [TypeError]. *)
Definition task_idx_as_int : M Backend Z :=
  s <- get ;;
  match task_idx (self s) with
  | Some i => ret i
  | None => raise Py.TypeError
  end.

Definition train (h : Host) : M Backend Value :=
  s <- get ;;
  if String.eqb (mode (self s)) "ddp" then
    process_idx <- task_idx_as_int ;;
    results <- ddp_train h process_idx None true 0 ;;
    del_WORLD_SIZE ;;;
    ret results
  else
    process_idx <- task_idx_as_int ;;
    ddp_train h process_idx None false 0 ;;;
    ret VNone.

End DDP.

(** ** [DDP2Backend] (ddp2_backend.py) *)

Module DDP2.

Record Backend : Type := {
  task_idx : option Z;
}.

Definition init : Backend := {| task_idx := None |}.

Definition set_task_idx (i : Z) : M Backend unit :=
  modify (set_self {| task_idx := Some i |}).

Definition elastic_message : string :=
  "ddp2 only works in SLURM or via torchelastic with the WORLD_SIZE, LOCAL_RANK, GROUP_RANK flags".

Definition _resolve_task_idx : M Backend unit :=
  s <- get ;;
  if is_slurm_managing_tasks (trainer s) then
    v <- lift (Py.environ_getitem (os_environ s) "SLURM_LOCALID") ;;
    n <- lift (Py.int v) ;;
    set_task_idx n
  else
    match and_then (Py.environ_getitem (os_environ s) "LOCAL_RANK") Py.int with
    | inr n => set_task_idx n
    | inl _ => raise (Py.MisconfigurationException elastic_message)
    end.

(** [setup], without the final [self.trainer.model = model]. *)
Definition setup : M Backend unit := _resolve_task_idx.

(** [ddp_train]: it has no [return], so the Python value is [None]. *)
Definition ddp_train (h : Host) (process_idx : Z) (mp_queue : option Queue)
    (is_master : bool) (proc_offset : Z) : M Backend unit :=
  let process_idx := process_idx + proc_offset in
  progress_bar_only_on_rank_0 process_idx ;;;
  update_trainer (fun t => set_ranks (node_rank t) (node_rank t) (num_nodes t) t) ;;;
  connect ;;;
  bind_device process_idx is_master ;;;
  choose_optimizer ;;;
  s <- get ;;
  let device_ids := (map Some) <$> data_parallel_device_ids (trainer s) in
  emit (ConfigureDDP device_ids) ;;;
  emit SetupTraining ;;;
  emit TrainOrTest ;;;
  let results := train_or_test h in
  transfer_distrib_spawn_state_on_fit_end mp_queue results ;;;
  emit CudaEmptyCache.

Definition task_idx_as_int : M Backend Z :=
  s <- get ;;
  match task_idx (self s) with
  | Some i => ret i
  | None => raise Py.TypeError
  end.

Definition train (h : Host) : M Backend Value :=
  process_idx <- task_idx_as_int ;;
  ddp_train h process_idx None false 0 ;;;
  ret VNone.

End DDP2.

(** ** Reading of the specification, for comparison with the code *)

(** The number of device ids in a visible-device list: none for the empty
    string, otherwise one more than the number of commas. *)
Definition visible_device_count (devices : string) : Z :=
  if String.eqb devices "" then 0
  else Z.of_nat (length (Py.split_comma devices)).

(** World size as the specification words it: the number of visible
    devices, at least 1, times the number of nodes. *)
Definition spec_world_size (devices : option string) (num_nodes : Z) : Z :=
  Z.max 1 (visible_device_count (default "" devices)) * num_nodes.

(** Node rank as the specification words it: the operator's [NODE_RANK]
    first, then the elastic layer's [GROUP_RANK], else node 0. *)
Definition spec_node_rank (environ : gmap string string) : string :=
  match environ !! "NODE_RANK" with
  | Some r => r
  | None => default "0" (environ !! "GROUP_RANK")
  end.

(** Extension substitution as the specification words it: a path ending
    in [.ckpt] gets [.tmp_end.ckpt] in place of that ending. *)
Fixpoint substitute_extension (path : string) : string :=
  match path with
  | EmptyString => EmptyString
  | String c r =>
      if String.eqb path ".ckpt" then ".tmp_end.ckpt"
      else String c (substitute_extension r)
  end.

(** [sub in s] for strings. *)
Fixpoint contains (sub s : string) : bool :=
  String.prefix sub s ||
  match s with
  | EmptyString => false
  | String _ r => contains sub r
  end.

(** ** Sample processes *)

Definition sample_trainer : Trainer :=
  {| global_rank := 0; local_rank := 0; node_rank := 0; world_size := 1;
     num_nodes := 1; num_processes := 3;
     is_slurm_managing_tasks := false; on_gpu := true; root_gpu := None;
     data_parallel_device_ids := Some [0; 1];
     distributed_backend := "ddp"; testing := false; should_stop := false;
     checkpoint_callback := Some {| best_model_path := Some "epoch=2.ckpt" |};
     progress_bar_callback := true; sync_batchnorm := false;
     amp_backend := None; interactive_ddp_procs := [] |}.

Definition with_should_stop (b : bool) (t : Trainer) : Trainer :=
  {| global_rank := global_rank t; local_rank := local_rank t;
     node_rank := node_rank t; world_size := world_size t;
     num_nodes := num_nodes t; num_processes := num_processes t;
     is_slurm_managing_tasks := is_slurm_managing_tasks t;
     on_gpu := on_gpu t; root_gpu := root_gpu t;
     data_parallel_device_ids := data_parallel_device_ids t;
     distributed_backend := distributed_backend t; testing := testing t;
     should_stop := b;
     checkpoint_callback := checkpoint_callback t;
     progress_bar_callback := progress_bar_callback t;
     sync_batchnorm := sync_batchnorm t; amp_backend := amp_backend t;
     interactive_ddp_procs := interactive_ddp_procs t |}.

Definition with_backend (name : string) (slurm testing : bool)
    (best : option ModelCheckpoint) (t : Trainer) : Trainer :=
  {| global_rank := global_rank t; local_rank := local_rank t;
     node_rank := node_rank t; world_size := world_size t;
     num_nodes := num_nodes t; num_processes := num_processes t;
     is_slurm_managing_tasks := slurm;
     on_gpu := on_gpu t; root_gpu := root_gpu t;
     data_parallel_device_ids := data_parallel_device_ids t;
     distributed_backend := name; testing := testing;
     should_stop := should_stop t;
     checkpoint_callback := best;
     progress_bar_callback := progress_bar_callback t;
     sync_batchnorm := sync_batchnorm t; amp_backend := amp_backend t;
     interactive_ddp_procs := interactive_ddp_procs t |}.

Definition with_topology (node_rank num_nodes num_processes : Z) (t : Trainer) : Trainer :=
  {| global_rank := global_rank t; local_rank := local_rank t;
     node_rank := node_rank; world_size := world_size t;
     num_nodes := num_nodes; num_processes := num_processes;
     is_slurm_managing_tasks := is_slurm_managing_tasks t;
     on_gpu := on_gpu t; root_gpu := root_gpu t;
     data_parallel_device_ids := data_parallel_device_ids t;
     distributed_backend := distributed_backend t; testing := testing t;
     should_stop := should_stop t;
     checkpoint_callback := checkpoint_callback t;
     progress_bar_callback := progress_bar_callback t;
     sync_batchnorm := sync_batchnorm t; amp_backend := amp_backend t;
     interactive_ddp_procs := interactive_ddp_procs t |}.

Definition sample_host : Host :=
  {| sys_executable := "/usr/bin/python";
     abspath := fun p => "/work/" +:+ p;
     find_free_network_port := 12910;
     HYDRA_AVAILABLE := false;
     to_absolute_path := fun p => inr ("/orig/" +:+ p);
     HydraConfig_initialized := false;
     get_original_cwd := "/orig";
     train_or_test := VObj (Py.Obj 7) |}.

Definition sample_state {B : Type} (b : B) (environ : gmap string string)
    (t : Trainer) : State B :=
  {| self := b; os_environ := environ; sys_argv := ["train.py"; "--gpus"; "2"];
     trainer := t; trace := [] |}.

(** A process group of world size 3 with the given stop flags. *)
Definition vote_group (flags : list bool) : list Trainer :=
  map (fun b => with_should_stop b (with_topology 0 1 3 (set_ranks 0 0 3 sample_trainer))) flags.

(** A master after script-mode setup, a worker under SLURM, and a
    whole-node worker under SLURM. *)
Definition spawned_master : State DDP.Backend :=
  (DDP.__ddp_script_mode_setup sample_host
     (sample_state (DDP.init "ddp") {["CUDA_VISIBLE_DEVICES" := "2,5"]} sample_trainer)).1.

Definition slurm_worker : State DDP.Backend :=
  (DDP.setup sample_host
     (sample_state (DDP.init "slurm_ddp") {["SLURM_LOCALID" := "0"]}
        (with_backend "ddp" true false None sample_trainer))).1.

Definition node_worker : State DDP2.Backend :=
  (DDP2.setup
     (sample_state DDP2.init {["SLURM_LOCALID" := "0"]}
        (with_backend "ddp2" true false None sample_trainer))).1.

(** The record of the child that the spawn loop starts for
    [local_rank], given the command line and the parent's environment. *)
Definition child_record (h : Host) (command : list string)
    (environ : gmap string string) (local_rank : Z) : Process :=
  Popen command (<["LOCAL_RANK" := Py.str local_rank]> environ)
    (if HYDRA_AVAILABLE h && HydraConfig_initialized h
     then Some (get_original_cwd h) else None).

(** The path that replaces [sys.argv[0]]. *)
Definition resolve_script (h : Host) (script : string) : string :=
  if negb (HYDRA_AVAILABLE h) then abspath h script
  else match to_absolute_path h script with
       | inr p => p
       | inl _ => abspath h script
       end.

(** The visible-device string after the one-character case got its comma. *)
Definition forwarded_gpu_ids (environ : gmap string string) : string :=
  let gpu_ids := Py.environ_get environ "CUDA_VISIBLE_DEVICES" "" in
  if Py.len gpu_ids =? 1 then gpu_ids +:+ "," else gpu_ids.

(** The node rank that script-mode setup exports. *)
Definition exported_node_rank (environ : gmap string string) : string :=
  Py.environ_get environ "GROUP_RANK" (Py.environ_get environ "NODE_RANK" "0").

(** [os.environ] as script-mode setup leaves it. *)
Definition exported_environ (h : Host) (environ : gmap string string)
    (num_nodes : Z) : gmap string string :=
  let num_gpus :=
    Z.max 1 (Z.of_nat (length (Py.split_comma (forwarded_gpu_ids environ)))) in
  <["WORLD_SIZE" := Py.str (num_gpus * num_nodes)]>
    (<["PL_TRAINER_GPUS" := forwarded_gpu_ids environ]>
       (<["LOCAL_RANK" := "0"]>
          (<["NODE_RANK" := exported_node_rank environ]>
             (<["MASTER_PORT" :=
                  Py.environ_get environ "MASTER_PORT"
                    (Py.str (find_free_network_port h))]>
                (<["MASTER_ADDR" :=
                     Py.environ_get environ "MASTER_ADDR" "127.0.0.1"]>
                   environ))))).

(** Further sample states. *)
Definition both_ranks_set : State DDP.Backend :=
  sample_state (DDP.init "ddp") {["NODE_RANK" := "1"; "GROUP_RANK" := "2"]} sample_trainer.

Definition one_visible_device : State DDP.Backend :=
  sample_state (DDP.init "ddp") {["CUDA_VISIBLE_DEVICES" := "0"]}
    (with_topology 0 1 1 sample_trainer).

Definition slurm_without_local_id : State DDP.Backend :=
  sample_state (DDP.init "slurm_ddp") ∅ (with_backend "ddp" true false None sample_trainer).

Definition node_slurm_without_local_id : State DDP2.Backend :=
  sample_state DDP2.init ∅ (with_backend "ddp2" true false None sample_trainer).

Definition node_elastic_malformed : State DDP2.Backend :=
  sample_state DDP2.init {["LOCAL_RANK" := "one"]}
    (with_backend "ddp2" false false None sample_trainer).

Definition spawn_rank_0 (testing : bool) (best : option string) : State DDP.Backend :=
  sample_state (DDP.init "ddp") ∅
    (with_backend "ddp_spawn" false testing (Some {| best_model_path := best |})
       sample_trainer).

(** ** Steps that only call collaborators *)

(** The state after the calls [evs] have been recorded. *)
Definition log_events {B : Type} (evs : list Event) (s : State B) : State B :=
  set_trace (trace s ++ evs) s.

(** A step that cannot raise and changes nothing but the trace. *)
Definition logs {B A : Type} (m : M B A) : Prop :=
  forall s, exists evs a, m s = (log_events evs s, inr a).

(** The value of the last statement of [DDPBackend.ddp_train] (lines
    257-258) on the trainer [t]. *)
Definition ddp_returned (h : Host) (t : Trainer) : Value :=
  if (global_rank t =? 0) && negb (str_in (distributed_backend t) ["ddp_spawn"; "ddp_cpu"])
  then train_or_test h else VNone.

(** ** Closed forms of the collaborator calls *)

(** The calls made by [progress_bar_only_on_rank_0]. *)
Definition progress_events (t : Trainer) (process_idx : Z) : list Event :=
  if (negb (node_rank t =? 0) || negb (process_idx =? 0)) && progress_bar_callback t
  then [ProgressBarDisable] else [].

(** The calls made by [connect]. *)
Definition connect_events (t : Trainer) : list Event :=
  [InitDDPConnection (global_rank t) (world_size t) (is_slurm_managing_tasks t);
   CallSetupHook].

(** The call made for [sync_batchnorm] in [DDPBackend.ddp_train]. *)
Definition sync_events (t : Trainer) : list Event :=
  if sync_batchnorm t then [ConfigureSyncBatchnorm] else [].

(** The calls made by [choose_optimizer]. *)
Definition optimizer_events (t : Trainer) : list Event :=
  [InitOptimizers; CopyTrainerModelProperties]
  ++ match amp_backend t with
     | Some APEX => [ConfigureApex; ReinitSchedulerProperties]
     | _ => []
     end.

(** The best path that [transfer_distrib_spawn_state_on_fit_end] reads. *)
Definition tracked_best_path (t : Trainer) : option string :=
  match checkpoint_callback t with
  | Some cb => best_model_path cb
  | None => None
  end.

(** The calls made by [transfer_distrib_spawn_state_on_fit_end]. *)
Definition fit_end_events (t : Trainer) (mp_queue : option Queue)
    (results : Value) : list Event :=
  match mp_queue with
  | Some q =>
      if str_in (lower (distributed_backend t)) ["ddp_spawn"; "ddp_cpu"; "tpu"]
         && (global_rank t =? 0)
      then
        [RankZeroWarn "cleaning up ddp environment...";
         QueuePut q (path_value (tracked_best_path t)); QueuePut q results]
        ++ match tracked_best_path t with
           | Some p =>
               if negb (testing t) && negb (String.eqb p "")
               then [AtomicSave (Py.re_sub_ckpt p);
                     QueuePut q (VStr (Py.re_sub_ckpt p))]
               else [QueuePut q VNone]
           | None => [QueuePut q VNone]
           end
      else []
  | None => []
  end.

(** The device ids that [DDPBackend.ddp_train] hands to [configure_ddp]. *)
Definition ddp_device_ids (t : Trainer) : option (list (option Z)) :=
  if String.eqb (distributed_backend t) "ddp"
     || String.eqb (distributed_backend t) "ddp_spawn"
  then Some [root_gpu t] else None.


Definition is_train_or_test (e : Event) : bool :=
  match e with TrainOrTest => true | _ => false end.


(** Sample states for the properties of [train]. *)
Definition elastic_worker : State DDP.Backend :=
  sample_state (DDP.init "torchelastic_ddp") {["LOCAL_RANK" := "2"]}
    (with_topology 1 2 3 sample_trainer).

Definition master_without_devices : State DDP.Backend :=
  sample_state (DDP.init "ddp") ∅ sample_trainer.

(** The settings of the run that [ddp_train] reads and never assigns,
    and the children that script-mode setup has started. *)
Definition same_settings (t t' : Trainer) : Prop :=
  node_rank t' = node_rank t
  /\ num_nodes t' = num_nodes t
  /\ num_processes t' = num_processes t
  /\ is_slurm_managing_tasks t' = is_slurm_managing_tasks t
  /\ on_gpu t' = on_gpu t
  /\ data_parallel_device_ids t' = data_parallel_device_ids t
  /\ distributed_backend t' = distributed_backend t
  /\ progress_bar_callback t' = progress_bar_callback t
  /\ sync_batchnorm t' = sync_batchnorm t
  /\ amp_backend t' = amp_backend t
  /\ interactive_ddp_procs t' = interactive_ddp_procs t.

(** The exception of the master's device lookup
    [int(os.environ['CUDA_VISIBLE_DEVICES'].split(',')[local_rank])] when
    it fails. *)
Definition device_lookup_error (environ : gmap string string) (local_rank : Z) : Py.Exc :=
  match environ !! "CUDA_VISIBLE_DEVICES" with
  | None => Py.KeyError "CUDA_VISIBLE_DEVICES"
  | Some v =>
      match Py.getitem (Py.split_comma v) local_rank with
      | inl _ => Py.IndexError
      | inr _ => Py.ValueError
      end
  end.

(** How [ddp_train] chooses the device [d] on a GPU run: the master
    reads it from the visible-device list at its local rank, any other
    process takes its process index. *)
Definition device_chosen (environ : gmap string string) (local_rank : Z)
    (is_master : bool) (process_idx d : Z) : Prop :=
  if is_master then
    exists v g, environ !! "CUDA_VISIBLE_DEVICES" = Some v
                /\ Py.getitem (Py.split_comma v) local_rank = inr g
                /\ Py.int g = inr d
  else d = process_idx.

(** A per-device backend built with a mode that [setup] does not know. *)
Definition mistyped_mode : State DDP.Backend :=
  sample_state (DDP.init "ddp_slurm") {["SLURM_LOCALID" := "0"]} sample_trainer.

(** A whole-node process on the given node, with two visible devices. *)
Definition two_device_node (node : Z) : State DDP2.Backend :=
  sample_state DDP2.init {["CUDA_VISIBLE_DEVICES" := "2,5"]}
    (with_backend "ddp2" false false None (with_topology node 3 1 sample_trainer)).

(** A fresh master with two visible devices, and a whole-node process
    under SLURM before [setup]. *)
Definition fresh_master : State DDP.Backend :=
  sample_state (DDP.init "ddp") {["CUDA_VISIBLE_DEVICES" := "2,5"]} sample_trainer.

Definition node_under_slurm : State DDP2.Backend :=
  sample_state DDP2.init {["SLURM_LOCALID" := "1"]}
    (with_backend "ddp2" true false None (with_topology 3 4 1 sample_trainer)).

(** * Properties *)

(** ** The monad *)

Section MonadFacts.
Context {B : Type}.

Lemma log_events_nil (s : State B) : log_events [] s = s.
Proof. destruct s; unfold log_events, set_trace; simpl. by rewrite app_nil_r. Qed.

Lemma log_events_app (e1 e2 : list Event) (s : State B) :
  log_events e2 (log_events e1 s) = log_events (e1 ++ e2) s.
Proof. unfold log_events, set_trace; simpl. by rewrite app_assoc. Qed.

Lemma run_eq {A : Type} (s1 s2 : State B) (r : Py.Exc + A) :
  self s1 = self s2 -> os_environ s1 = os_environ s2 ->
  sys_argv s1 = sys_argv s2 -> trainer s1 = trainer s2 ->
  trace s1 = trace s2 -> (s1, r) = (s2, r).
Proof. destruct s1, s2; simpl; intros; by subst. Qed.

Lemma emit_run (e : Event) (s : State B) : emit e s = (log_events [e] s, inr tt).
Proof. reflexivity. Qed.

Lemma bind_run_ok {A C : Type} (m : M B A) (k : A -> M B C) s s' a :
  m s = (s', inr a) -> bind m k s = k a s'.
Proof. unfold bind. by intros ->. Qed.

Lemma bind_run_exc {A C : Type} (m : M B A) (k : A -> M B C) s s' e :
  m s = (s', inl e) -> bind m k s = (s', inl e).
Proof. unfold bind. by intros ->. Qed.

Lemma logs_ret {A : Type} (a : A) : logs (B := B) (ret a).
Proof. intros s. exists [], a. by rewrite log_events_nil. Qed.

Lemma logs_emit (e : Event) : logs (B := B) (emit e).
Proof. intros s. by exists [e], tt. Qed.

Lemma logs_bind {A C : Type} (m : M B A) (k : A -> M B C) :
  logs m -> (forall a, logs (k a)) -> logs (bind m k).
Proof.
  intros Hm Hk s. destruct (Hm s) as (e1 & a & Ha).
  destruct (Hk a (log_events e1 s)) as (e2 & c & Hc).
  exists (e1 ++ e2)%list, c. rewrite (bind_run_ok _ _ _ _ _ Ha), Hc.
  by rewrite log_events_app.
Qed.

Lemma logs_get_bind {C : Type} (k : State B -> M B C) :
  (forall s, logs (k s)) -> logs (bind get k).
Proof. intros Hk s. unfold bind, get. apply Hk. Qed.

Lemma logs_when (c : bool) (m : M B unit) : logs m -> logs (when c m).
Proof. destruct c; simpl; [done | intros _; apply logs_ret]. Qed.

End MonadFacts.

(** Closes an equation between two runs whose states agree field by
    field, up to the bracketing of the trace. *)
Ltac same_run :=
  apply run_eq; try reflexivity; cbn; rewrite <- ?app_assoc; reflexivity.

Ltac logs_step :=
  repeat match goal with
    | |- logs (ret _) => apply logs_ret
    | |- logs (emit _) => apply logs_emit
    | |- logs (when _ _) => apply logs_when
    | |- logs (bind get _) => apply logs_get_bind; intros ?
    | |- logs (bind _ _) => apply logs_bind; [ | intros ? ]
    end.

(** ** Python primitives *)

Example split_comma_examples :
  Py.split_comma "" = [""] /\ Py.split_comma "0," = ["0"; ""]
  /\ Py.split_comma "2,5" = ["2"; "5"] /\ Py.split_comma "," = [""; ""].
Proof. repeat split; reflexivity. Qed.

Example int_examples :
  Py.int " 12 " = inr 12 /\ Py.int "-3" = inr (-3) /\ Py.int "1_0" = inr 10
  /\ Py.int "+5" = inr 5 /\ Py.int "007" = inr 7
  /\ Py.int "" = inl Py.ValueError /\ Py.int "a" = inl Py.ValueError
  /\ Py.int "1__0" = inl Py.ValueError /\ Py.int "_1" = inl Py.ValueError
  /\ Py.int "1_" = inl Py.ValueError /\ Py.int "+ 5" = inl Py.ValueError
  /\ Py.int "--1" = inl Py.ValueError /\ Py.int "5 5" = inl Py.ValueError.
Proof. repeat split; reflexivity. Qed.

Example str_examples : Py.str 0 = "0" /\ Py.str 12 = "12" /\ Py.str (-7) = "-7".
Proof. repeat split; vm_compute; reflexivity. Qed.

Example re_sub_examples :
  Py.re_sub_ckpt "epoch=2.ckpt" = "epoch=2.tmp_end.ckpt"
  /\ Py.re_sub_ckpt "ckpt" = "ckpt"
  /\ Py.re_sub_ckpt "a.ckptckpt" = "a.tmp_end.ckptckpt"
  /\ Py.re_sub_ckpt "/data/ckpt/epoch=2.ckpt" = "/data.tmp_end.ckpt/epoch=2.tmp_end.ckpt".
Proof. repeat split; reflexivity. Qed.

Example range_examples :
  Py.range 1 4 = [1; 2; 3] /\ Py.range 1 1 = [] /\ Py.range 1 0 = [].
Proof. repeat split; reflexivity. Qed.

Example getitem_examples :
  Py.getitem ["2"; "5"] 1 = inr "5" /\ Py.getitem ["2"; "5"] (-1) = inr "5"
  /\ Py.getitem ["2"; "5"] (-2) = inr "2"
  /\ Py.getitem ["2"; "5"] 2 = inl Py.IndexError
  /\ Py.getitem ["2"; "5"] (-3) = inl Py.IndexError.
Proof. repeat split; reflexivity. Qed.

Lemma getitem_head {A : Type} (x : A) (l : list A) : Py.getitem (x :: l) 0 = inr x.
Proof.
  unfold Py.getitem. cbn [length Z.ltb Z.compare].
  replace (0 <=? 0) with true by reflexivity.
  replace (0 <? Z.of_nat (S (length l))) with true by (symmetry; apply Z.ltb_lt; lia).
  reflexivity.
Qed.

Lemma getitem_in_range {A : Type} (l : list A) (i : Z) (x : A) :
  0 <= i -> l !! Z.to_nat i = Some x -> Py.getitem l i = inr x.
Proof.
  intros Hi Hx. unfold Py.getitem.
  assert (Z.to_nat i < length l)%nat by (eapply lookup_lt_Some; eauto).
  replace (i <? 0) with false by (symmetry; apply Z.ltb_ge; lia).
  replace (0 <=? i) with true by (symmetry; apply Z.leb_le; lia).
  replace (i <? Z.of_nat (length l)) with true by (symmetry; apply Z.ltb_lt; lia).
  simpl. by rewrite Hx.
Qed.

Lemma split_comma_nonempty (s : string) : (1 <= length (Py.split_comma s))%nat.
Proof.
  induction s as [|c r IH]; simpl; [lia|].
  destruct (Ascii.eqb c ","); simpl; [lia|].
  destruct (Py.split_comma r); simpl in *; lia.
Qed.

(** ** Early-stop vote *)

Lemma all_reduce_sum_flags (group : list Trainer) :
  let total := all_reduce_sum (map (fun p => int_of_bool (should_stop p)) group) in
  0 <= total <= Z.of_nat (length group)
  /\ (total = Z.of_nat (length group) <-> Forall (fun p => should_stop p = true) group).
Proof.
  induction group as [|p group IH]; simpl.
  - split; [lia|]. split; [constructor | reflexivity].
  - destruct IH as [Hb Hiff]. unfold all_reduce_sum in *. simpl.
    destruct (should_stop p) eqn:Hp; simpl.
    + split; [lia|]. split.
      * intros H. constructor; [done|]. apply Hiff. lia.
      * intros H. inversion H; subst. apply Hiff in H3. lia.
    + split; [lia|]. split; [lia|].
      intros H. inversion H; subst. congruence.
Qed.

(** C3. In a process group whose size is the world size, the vote of every
    process is true exactly when the reduced sum of the 0/1 flags equals
    the world size, which is exactly when every process has raised its
    flag. *)
Theorem early_stop_vote_is_unanimous (group : list Trainer) (t : Trainer) :
  world_size t = Z.of_nat (length group) ->
  (early_stopping_should_stop group t = true
   <-> all_reduce_sum (map (fun p => int_of_bool (should_stop p)) group) = world_size t)
  /\ (early_stopping_should_stop group t = true
      <-> forall p, p ∈ group -> should_stop p = true).
Proof.
  intros Hws. unfold early_stopping_should_stop.
  destruct (all_reduce_sum_flags group) as [_ Hall]. cbv zeta in Hall.
  rewrite Z.eqb_eq, Hws. split; [reflexivity|].
  rewrite Hall. apply Forall_forall.
Qed.

Lemma early_stop_vote_is_unanimous_witness :
  early_stopping_should_stop (vote_group [true; true; true])
    (with_topology 0 1 3 (set_ranks 0 0 3 sample_trainer)) = true
  <-> forall p, p ∈ vote_group [true; true; true] -> should_stop p = true.
Proof.
  apply (early_stop_vote_is_unanimous (vote_group [true; true; true])
           (with_topology 0 1 3 (set_ranks 0 0 3 sample_trainer))).
  reflexivity.
Defined.

Example early_stop_all_ones :
  forall t, t ∈ vote_group [true; true; true] ->
  early_stopping_should_stop (vote_group [true; true; true]) t = true.
Proof. intros t Ht. repeat (apply elem_of_cons in Ht as [-> | Ht]; [reflexivity|]). inversion Ht. Qed.

Example early_stop_one_zero :
  forall t, t ∈ vote_group [true; false; true] ->
  early_stopping_should_stop (vote_group [true; false; true]) t = false.
Proof. intros t Ht. repeat (apply elem_of_cons in Ht as [-> | Ht]; [reflexivity|]). inversion Ht. Qed.

(** ** Steps shared by the two backends *)

Section SharedSteps.
Context {B : Type}.

Lemma logs_progress_bar (process_idx : Z) :
  logs (B := B) (progress_bar_only_on_rank_0 process_idx).
Proof. unfold progress_bar_only_on_rank_0. logs_step. Qed.

Lemma logs_connect : logs (B := B) connect.
Proof. unfold connect. logs_step. Qed.

Lemma logs_choose_optimizer : logs (B := B) choose_optimizer.
Proof.
  unfold choose_optimizer. logs_step.
  destruct (amp_backend _) as [[]|]; logs_step.
Qed.

Lemma logs_transfer (mp_queue : option Queue) (results : Value) :
  logs (B := B) (transfer_distrib_spawn_state_on_fit_end mp_queue results).
Proof.
  unfold transfer_distrib_spawn_state_on_fit_end. logs_step.
  destruct (negb _); [logs_step|].
  destruct mp_queue; [|logs_step].
  destruct (_ =? 0); [|logs_step].
  logs_step.
  destruct (match checkpoint_callback _ with Some _ => _ | None => _ end);
    [|logs_step].
  destruct (_ && _); logs_step.
Qed.

(** Outside the spawn family, on another rank, or without a queue, the
    fit-end transfer does nothing at all. *)
Lemma transfer_noop (mp_queue : option Queue) (results : Value) (s : State B) :
  str_in (lower (distributed_backend (trainer s))) ["ddp_spawn"; "ddp_cpu"; "tpu"] = false
  \/ global_rank (trainer s) <> 0 \/ mp_queue = None ->
  transfer_distrib_spawn_state_on_fit_end mp_queue results s = (s, inr tt).
Proof.
  unfold transfer_distrib_spawn_state_on_fit_end, bind, get.
  intros [Hf | [Hr | Hq]].
  - by rewrite Hf.
  - destruct (negb _); [done|]. destruct mp_queue; [|done].
    apply Z.eqb_neq in Hr. by rewrite Hr.
  - subst. by destruct (negb _).
Qed.

(** The last-weights path that the code computes. *)
Lemma transfer_three_messages (q : Queue) (results : Value) (s : State B) :
  str_in (lower (distributed_backend (trainer s))) ["ddp_spawn"; "ddp_cpu"; "tpu"] = true ->
  global_rank (trainer s) = 0 ->
  let best :=
    match checkpoint_callback (trainer s) with
    | Some cb => best_model_path cb
    | None => None
    end in
  let last :=
    match best with
    | Some p =>
        if testing (trainer s) || String.eqb p "" then None
        else Some (Py.re_sub_ckpt p)
    | None => None
    end in
  transfer_distrib_spawn_state_on_fit_end (Some q) results s =
    (log_events
       ([RankZeroWarn "cleaning up ddp environment...";
         QueuePut q (path_value best); QueuePut q results]
        ++ match last with Some p => [AtomicSave p] | None => [] end
        ++ [QueuePut q (path_value last)]) s,
     inr tt).
Proof.
  intros Hf Hr best last. subst best last.
  unfold transfer_distrib_spawn_state_on_fit_end, bind, get.
  rewrite Hf, Hr. cbn [negb Z.eqb].
  destruct (checkpoint_callback (trainer s)) as [[[p|]]|];
    cbn -[Py.re_sub_ckpt Py.len Z.ltb].
  - destruct (testing (trainer s)); cbn -[Py.re_sub_ckpt Py.len Z.ltb].
    + same_run.
    + destruct p as [|c p].
      * same_run.
      * replace (0 <? Py.len (String c p)) with true
          by (symmetry; apply Z.ltb_lt; unfold Py.len; simpl; lia).
        cbn -[Py.re_sub_ckpt].
        apply run_eq; try reflexivity. cbn -[Py.re_sub_ckpt].
        by rewrite <- !app_assoc.
  - same_run.
  - same_run.
Qed.

Lemma bind_device_cpu (process_idx : Z) (is_master : bool) (s : State B) :
  on_gpu (trainer s) = false ->
  bind_device process_idx is_master s = (s, inr tt).
Proof. unfold bind_device, bind, get. by intros ->. Qed.

Lemma bind_device_worker (process_idx : Z) (s : State B) :
  on_gpu (trainer s) = true ->
  bind_device process_idx false s =
    (log_events [CudaSetDevice process_idx; ModelCuda process_idx]
       (set_trainer (set_root_gpu process_idx (trainer s)) s), inr tt).
Proof. unfold bind_device, bind, get. intros ->. same_run. Qed.

Lemma bind_device_master (process_idx : Z) (s : State B) (v g : string) (d : Z) :
  on_gpu (trainer s) = true ->
  os_environ s !! "CUDA_VISIBLE_DEVICES" = Some v ->
  Py.getitem (Py.split_comma v) (local_rank (trainer s)) = inr g ->
  Py.int g = inr d ->
  bind_device process_idx true s =
    (log_events [CudaSetDevice d; ModelCuda d]
       (set_trainer (set_root_gpu d (trainer s)) s), inr tt).
Proof.
  unfold bind_device, bind, get, lift, Py.environ_getitem.
  intros -> -> -> ->. same_run.
Qed.

(** Whatever the outcome, device binding leaves the backend object, the
    environment and the command line alone, and touches at most the
    [root_gpu] field of the trainer. *)
Lemma bind_device_frame (process_idx : Z) (is_master : bool) (s : State B) :
  let s' := (bind_device process_idx is_master s).1 in
  self s' = self s /\ os_environ s' = os_environ s /\ sys_argv s' = sys_argv s
  /\ (trainer s' = trainer s
      \/ exists g, trainer s' = set_root_gpu g (trainer s)).
Proof.
  unfold bind_device, bind, get, lift.
  destruct (on_gpu (trainer s)); [|simpl; tauto].
  destruct is_master; [|simpl; eauto 10].
  destruct (Py.environ_getitem _ _); [simpl; tauto|].
  destruct (Py.getitem _ _); [simpl; tauto|].
  destruct (Py.int _); simpl; eauto 10.
Qed.

End SharedSteps.

(** ** [ddp_train] *)

Lemma state_eq {B : Type} (s1 s2 : State B) :
  self s1 = self s2 -> os_environ s1 = os_environ s2 ->
  sys_argv s1 = sys_argv s2 -> trainer s1 = trainer s2 ->
  trace s1 = trace s2 -> s1 = s2.
Proof. destruct s1, s2; simpl; intros; by subst. Qed.

Lemma bind_get_run {B C : Type} (k : State B -> M B C) (s : State B) :
  bind get k s = k s s.
Proof. reflexivity. Qed.

Lemma bind_update_trainer_run {B C : Type} (f : Trainer -> Trainer)
    (k : unit -> M B C) (s : State B) :
  bind (update_trainer f) k s = k tt (set_trainer (f (trainer s)) s).
Proof. reflexivity. Qed.

Lemma bind_logs_run {B A C : Type} (m : M B A) (k : A -> M B C) (s : State B) :
  logs m -> exists evs a, bind m k s = k a (log_events evs s).
Proof.
  intros Hm. destruct (Hm s) as (evs & a & Ha). exists evs, a.
  by apply bind_run_ok.
Qed.

Ltac step_logs lem :=
  match goal with
  | |- context [bind ?m ?k ?s] =>
      let H := fresh in
      destruct (bind_logs_run m k s lem) as (? & ? & H); rewrite H; clear H
  end.

Ltac step_emit :=
  match goal with
  | |- context [bind (emit ?e) ?k ?s] =>
      rewrite (bind_run_ok (emit e) k s _ _ (emit_run e s))
  end.

Lemma DDP_ddp_train_run (h : Host) (process_idx : Z) (mp_queue : option Queue)
    (is_master : bool) (proc_offset : Z) (s : State DDP.Backend) :
  let p := process_idx + proc_offset in
  let t := trainer s in
  let ranked :=
    set_ranks p (node_rank t * num_processes t + p) (num_nodes t * num_processes t) t in
  exists evs,
    let s2 := log_events evs (set_trainer ranked s) in
    (forall s3 e, bind_device p is_master s2 = (s3, inl e) ->
       DDP.ddp_train h process_idx mp_queue is_master proc_offset s = (s3, inl e))
    /\ (forall s3 u, bind_device p is_master s2 = (s3, inr u) ->
         exists evs',
           DDP.ddp_train h process_idx mp_queue is_master proc_offset s
           = (log_events evs' s3, inr (ddp_returned h (trainer s3)))).
Proof.
  intros p t ranked. unfold DDP.ddp_train. cbv zeta. fold p.
  step_logs (logs_progress_bar (B := DDP.Backend) p).
  rewrite bind_update_trainer_run.
  step_logs (logs_connect (B := DDP.Backend)).
  rewrite bind_get_run.
  match goal with |- context [when ?c ?m] => step_logs (logs_when c m (logs_emit _)) end.
  exists (x ++ x1 ++ x3)%list.
  match goal with
  | |- context [bind _ _ ?st] =>
      replace st with (log_events (x ++ x1 ++ x3) (set_trainer ranked s))
        by (apply state_eq; try reflexivity; cbn; by rewrite <- ?app_assoc)
  end.
  split; intros s3 e Hbd.
  - by rewrite (bind_run_exc _ _ _ _ _ Hbd).
  - rewrite (bind_run_ok _ _ _ _ _ Hbd).
    step_logs (logs_choose_optimizer (B := DDP.Backend)).
    rewrite bind_get_run.
    do 3 step_emit.
    step_logs (logs_transfer (B := DDP.Backend) mp_queue (train_or_test h)).
    step_emit.
    rewrite bind_get_run, !log_events_app.
    eexists. unfold ddp_returned. cbn [trainer log_events set_trace].
    destruct (_ && _); reflexivity.
Qed.

Lemma DDP2_ddp_train_run (h : Host) (process_idx : Z) (mp_queue : option Queue)
    (is_master : bool) (proc_offset : Z) (s : State DDP2.Backend) :
  let p := process_idx + proc_offset in
  let t := trainer s in
  let ranked := set_ranks (node_rank t) (node_rank t) (num_nodes t) t in
  exists evs,
    let s2 := log_events evs (set_trainer ranked s) in
    (forall s3 e, bind_device p is_master s2 = (s3, inl e) ->
       DDP2.ddp_train h process_idx mp_queue is_master proc_offset s = (s3, inl e))
    /\ (forall s3 u, bind_device p is_master s2 = (s3, inr u) ->
         exists evs',
           DDP2.ddp_train h process_idx mp_queue is_master proc_offset s
           = (log_events evs' s3, inr tt)).
Proof.
  intros p t ranked. unfold DDP2.ddp_train. cbv zeta. fold p.
  step_logs (logs_progress_bar (B := DDP2.Backend) p).
  rewrite bind_update_trainer_run.
  step_logs (logs_connect (B := DDP2.Backend)).
  exists (x ++ x1)%list.
  match goal with
  | |- context [bind _ _ ?st] =>
      replace st with (log_events (x ++ x1) (set_trainer ranked s))
        by (apply state_eq; try reflexivity; cbn; by rewrite <- ?app_assoc)
  end.
  split; intros s3 e Hbd.
  - by rewrite (bind_run_exc _ _ _ _ _ Hbd).
  - rewrite (bind_run_ok _ _ _ _ _ Hbd).
    step_logs (logs_choose_optimizer (B := DDP2.Backend)).
    rewrite bind_get_run.
    do 3 step_emit.
    step_logs (logs_transfer (B := DDP2.Backend) mp_queue (train_or_test h)).
    rewrite emit_run, !log_events_app.
    destruct e. by eexists.
Qed.

(** The trainer after [ddp_train], whether it returned or raised: the
    ranks are assigned, and at most [root_gpu] differs beyond that. *)
Lemma DDP_ddp_train_trainer (h : Host) (process_idx : Z) (mp_queue : option Queue)
    (is_master : bool) (proc_offset : Z) (s : State DDP.Backend) :
  let p := process_idx + proc_offset in
  let t := trainer s in
  let ranked :=
    set_ranks p (node_rank t * num_processes t + p) (num_nodes t * num_processes t) t in
  let t' := trainer (DDP.ddp_train h process_idx mp_queue is_master proc_offset s).1 in
  t' = ranked \/ exists g, t' = set_root_gpu g ranked.
Proof.
  intros p t ranked.
  destruct (DDP_ddp_train_run h process_idx mp_queue is_master proc_offset s)
    as (evs & Hexc & Hok). fold p t ranked in Hexc, Hok.
  pose proof (bind_device_frame p is_master (log_events evs (set_trainer ranked s)))
    as (_ & _ & _ & Hfr).
  destruct (bind_device p is_master _) as [s3 [e|u]] eqn:Hbd.
  - rewrite (Hexc _ _ eq_refl). exact Hfr.
  - destruct (Hok _ _ eq_refl) as (evs' & ->). exact Hfr.
Qed.

Lemma DDP2_ddp_train_trainer (h : Host) (process_idx : Z) (mp_queue : option Queue)
    (is_master : bool) (proc_offset : Z) (s : State DDP2.Backend) :
  let t := trainer s in
  let ranked := set_ranks (node_rank t) (node_rank t) (num_nodes t) t in
  let t' := trainer (DDP2.ddp_train h process_idx mp_queue is_master proc_offset s).1 in
  t' = ranked \/ exists g, t' = set_root_gpu g ranked.
Proof.
  intros t ranked.
  destruct (DDP2_ddp_train_run h process_idx mp_queue is_master proc_offset s)
    as (evs & Hexc & Hok). fold t ranked in Hexc, Hok.
  pose proof (bind_device_frame (process_idx + proc_offset) is_master
                (log_events evs (set_trainer ranked s))) as (_ & _ & _ & Hfr).
  destruct (bind_device _ is_master _) as [s3 [e|u]] eqn:Hbd.
  - rewrite (Hexc _ _ eq_refl). exact Hfr.
  - destruct (Hok _ _ eq_refl) as (evs' & ->). exact Hfr.
Qed.

(** C1. After [ddp_train] of the per-device backend the trainer has
    [local_rank = process_idx + proc_offset],
    [global_rank = node_rank * num_processes + local_rank] and
    [world_size = num_nodes * num_processes]; after [ddp_train] of the
    whole-node backend it has [global_rank = node_rank] and
    [world_size = num_nodes].  The node rank and the two counts are the
    ones the trainer had before the call. *)
Theorem ddp_train_rank_and_world_size (h : Host) (process_idx : Z)
    (mp_queue : option Queue) (is_master : bool) (proc_offset : Z)
    (s1 : State DDP.Backend) (s2 : State DDP2.Backend) :
  let t1 := trainer (DDP.ddp_train h process_idx mp_queue is_master proc_offset s1).1 in
  let t2 := trainer (DDP2.ddp_train h process_idx mp_queue is_master proc_offset s2).1 in
  (local_rank t1 = process_idx + proc_offset
   /\ global_rank t1 = node_rank t1 * num_processes t1 + local_rank t1
   /\ world_size t1 = num_nodes t1 * num_processes t1
   /\ node_rank t1 = node_rank (trainer s1)
   /\ num_processes t1 = num_processes (trainer s1)
   /\ num_nodes t1 = num_nodes (trainer s1))
  /\ (global_rank t2 = node_rank t2
      /\ world_size t2 = num_nodes t2
      /\ node_rank t2 = node_rank (trainer s2)
      /\ num_nodes t2 = num_nodes (trainer s2)).
Proof.
  intros t1 t2. split.
  - destruct (DDP_ddp_train_trainer h process_idx mp_queue is_master proc_offset s1)
      as [H | [g H]]; subst t1; rewrite H; simpl; tauto.
  - destruct (DDP2_ddp_train_trainer h process_idx mp_queue is_master proc_offset s2)
      as [H | [g H]]; subst t2; rewrite H; simpl; tauto.
Qed.

Example ddp_train_rank_on_second_node :
  let s := sample_state (DDP.init "slurm_ddp") ∅ (with_topology 2 4 3 sample_trainer) in
  let t := trainer (DDP.ddp_train sample_host 1 None false 0 s).1 in
  (local_rank t, global_rank t, world_size t) = (1, 7, 12).
Proof. vm_compute. reflexivity. Qed.

Example ddp2_train_rank_on_second_node :
  let s := sample_state DDP2.init ∅ (with_topology 2 4 3 sample_trainer) in
  let t := trainer (DDP2.ddp_train sample_host 1 None false 0 s).1 in
  (global_rank t, world_size t) = (2, 4).
Proof. vm_compute. reflexivity. Qed.

(** ** Device binding inside [ddp_train] *)

Lemma DDP_ddp_train_binds (h : Host) (process_idx : Z) (mp_queue : option Queue)
    (is_master : bool) (proc_offset d : Z) (s : State DDP.Backend) :
  (forall s2 : State DDP.Backend,
     os_environ s2 = os_environ s ->
     on_gpu (trainer s2) = on_gpu (trainer s) ->
     local_rank (trainer s2) = process_idx + proc_offset ->
     bind_device (process_idx + proc_offset) is_master s2
     = (log_events [CudaSetDevice d; ModelCuda d]
          (set_trainer (set_root_gpu d (trainer s2)) s2), inr tt)) ->
  let r := DDP.ddp_train h process_idx mp_queue is_master proc_offset s in
  root_gpu (trainer r.1) = Some d /\ CudaSetDevice d ∈ trace r.1
  /\ exists v, r.2 = inr v.
Proof.
  intros Hbd r. subst r.
  destruct (DDP_ddp_train_run h process_idx mp_queue is_master proc_offset s)
    as (evs & _ & Hok).
  match type of Hok with
  | context [bind_device _ _ ?st] =>
      destruct (Hok _ _ (Hbd st eq_refl eq_refl eq_refl)) as (evs' & ->)
  end.
  cbn. split; [done|]. split; [|eauto].
  rewrite !elem_of_app, elem_of_cons. tauto.
Qed.

Lemma DDP2_ddp_train_binds (h : Host) (process_idx : Z) (mp_queue : option Queue)
    (is_master : bool) (proc_offset d : Z) (s : State DDP2.Backend) :
  (forall s2 : State DDP2.Backend,
     os_environ s2 = os_environ s ->
     on_gpu (trainer s2) = on_gpu (trainer s) ->
     local_rank (trainer s2) = node_rank (trainer s) ->
     bind_device (process_idx + proc_offset) is_master s2
     = (log_events [CudaSetDevice d; ModelCuda d]
          (set_trainer (set_root_gpu d (trainer s2)) s2), inr tt)) ->
  let r := DDP2.ddp_train h process_idx mp_queue is_master proc_offset s in
  root_gpu (trainer r.1) = Some d /\ CudaSetDevice d ∈ trace r.1
  /\ r.2 = inr tt.
Proof.
  intros Hbd r. subst r.
  destruct (DDP2_ddp_train_run h process_idx mp_queue is_master proc_offset s)
    as (evs & _ & Hok).
  match type of Hok with
  | context [bind_device _ _ ?st] =>
      destruct (Hok _ _ (Hbd st eq_refl eq_refl eq_refl)) as (evs' & ->)
  end.
  cbn. split; [done|]. split; [|done].
  rewrite !elem_of_app, elem_of_cons. tauto.
Qed.

(** C9, at the master of a whole-node process.  With visible devices
    ["2,5"] and process index 1 on node 0, the master of the per-device
    backend binds device 5, the entry at its local rank 1.  The master of
    the whole-node backend, whose trainer holds the node rank as local
    rank, binds device 2, the entry at index 0, and on node 2 the same
    call raises [IndexError].  A process that is not the master binds
    device 1 in both backends. *)
Theorem whole_node_master_indexes_by_node_rank :
  let master1 := DDP.ddp_train sample_host 1 None true 0 fresh_master in
  let worker1 := DDP.ddp_train sample_host 1 None false 0 fresh_master in
  let master2 := DDP2.ddp_train sample_host 1 None true 0 (two_device_node 0) in
  let worker2 := DDP2.ddp_train sample_host 1 None false 0 (two_device_node 0) in
  (local_rank (trainer master1.1) = 1 /\ root_gpu (trainer master1.1) = Some 5)
  /\ root_gpu (trainer worker1.1) = Some 1
  /\ (master2.2 = inr tt
      /\ local_rank (trainer master2.1) = 0
      /\ root_gpu (trainer master2.1) = Some 2
      /\ CudaSetDevice 2 ∈ trace master2.1
      /\ CudaSetDevice 5 ∉ trace master2.1)
  /\ root_gpu (trainer worker2.1) = Some 1
  /\ (DDP2.ddp_train sample_host 1 None true 0 (two_device_node 2)).2
     = inl Py.IndexError.
Proof.
  intros master1 worker1 master2 worker2.
  repeat split; try (vm_compute; reflexivity).
  - apply list_elem_of_In. vm_compute. tauto.
  - intros H%list_elem_of_In. vm_compute in H. intuition discriminate.
Qed.

(** ** What [train] hands back *)

Lemma DDP_ddp_train_returns (h : Host) (process_idx : Z) (mp_queue : option Queue)
    (is_master : bool) (proc_offset : Z) (s s' : State DDP.Backend) (out : Value) :
  DDP.ddp_train h process_idx mp_queue is_master proc_offset s = (s', inr out) ->
  out = ddp_returned h (trainer s').
Proof.
  intros Hrun.
  destruct (DDP_ddp_train_run h process_idx mp_queue is_master proc_offset s)
    as (evs & Hexc & Hok).
  destruct (bind_device _ is_master _) as [s3 [e|u]] eqn:Hbd.
  - rewrite (Hexc _ _ eq_refl) in Hrun. discriminate.
  - destruct (Hok _ _ eq_refl) as (evs' & Heq). rewrite Heq in Hrun.
    by inversion Hrun.
Qed.

(** On a CPU run nothing in [ddp_train] can raise, and the environment
    is left as it was. *)
Lemma DDP_ddp_train_on_cpu (h : Host) (process_idx : Z) (mp_queue : option Queue)
    (is_master : bool) (proc_offset : Z) (s : State DDP.Backend) :
  on_gpu (trainer s) = false ->
  exists s' out,
    DDP.ddp_train h process_idx mp_queue is_master proc_offset s = (s', inr out)
    /\ os_environ s' = os_environ s.
Proof.
  intros Hcpu.
  destruct (DDP_ddp_train_run h process_idx mp_queue is_master proc_offset s)
    as (evs & _ & Hok).
  match type of Hok with
  | context [bind_device ?p _ ?st] =>
      destruct (Hok st tt (bind_device_cpu p is_master st Hcpu)) as (evs' & ->)
  end.
  eauto.
Qed.

(** [train] returns on a CPU run once [setup] has fixed the task index
    and, in script mode, exported [WORLD_SIZE]. *)
Lemma DDP_train_on_cpu_returns (h : Host) (s : State DDP.Backend) (i : Z) :
  on_gpu (trainer s) = false ->
  DDP.task_idx (self s) = Some i ->
  is_Some (os_environ s !! "WORLD_SIZE") ->
  exists out, (DDP.train h s).2 = inr out.
Proof.
  intros Hcpu Htask [w Hw].
  unfold DDP.train, DDP.task_idx_as_int, DDP.del_WORLD_SIZE,
    bind, get, ret, raise, modify.
  destruct (String.eqb (DDP.mode (self s)) "ddp"); rewrite Htask.
  - destruct (DDP_ddp_train_on_cpu h i None true 0 s Hcpu) as (s' & out & -> & Henv).
    rewrite Henv, Hw. cbn. eauto.
  - destruct (DDP_ddp_train_on_cpu h i None false 0 s Hcpu) as (s' & out & -> & _).
    cbn. eauto.
Qed.

(** C10. When [train] returns normally, the per-device backend hands back
    the payload of the train loop exactly when its mode is ['ddp'], the
    global rank is 0 and the distributed backend is neither ['ddp_spawn']
    nor ['ddp_cpu']; in every other mode, ['slurm_ddp'] and
    ['torchelastic_ddp'] among them, it hands back [None].  The whole-node
    backend always hands back [None]. *)
Theorem train_returns_payload_only_in_script_mode (h : Host)
    (s1 : State DDP.Backend) (s2 : State DDP2.Backend) (out1 out2 : Value) :
  (DDP.train h s1).2 = inr out1 ->
  (DDP2.train h s2).2 = inr out2 ->
  let t1 := trainer (DDP.train h s1).1 in
  out1 = (if String.eqb (DDP.mode (self s1)) "ddp"
             && (global_rank t1 =? 0)
             && negb (str_in (distributed_backend t1) ["ddp_spawn"; "ddp_cpu"])
          then train_or_test h else VNone)
  /\ out2 = VNone.
Proof.
  intros H1 H2 t1. split.
  - subst t1. revert H1.
    unfold DDP.train, DDP.task_idx_as_int, DDP.del_WORLD_SIZE,
      bind, get, ret, raise, modify.
    destruct (String.eqb (DDP.mode (self s1)) "ddp");
      (destruct (DDP.task_idx (self s1)) as [i|]; [|discriminate]).
    + destruct (DDP.ddp_train h i None true 0 s1) as [s' [e|r]] eqn:Hrun;
        [discriminate|].
      apply DDP_ddp_train_returns in Hrun. subst r.
      destruct (os_environ s' !! "WORLD_SIZE"); [|discriminate].
      cbn. by intros [= <-].
    + destruct (DDP.ddp_train h i None false 0 s1) as [s' [e|r]];
        [discriminate|].
      cbn. by intros [= <-].
  - revert H2.
    unfold DDP2.train, DDP2.task_idx_as_int, bind, get, ret, raise.
    destruct (DDP2.task_idx (self s2)) as [i|]; [|discriminate].
    destruct (DDP2.ddp_train h i None false 0 s2) as [s' [e|r]];
      [discriminate|].
    cbn. by intros [= <-].
Qed.

Lemma train_returns_payload_only_in_script_mode_witness :
  let t1 := trainer (DDP.train sample_host spawned_master).1 in
  VObj (Py.Obj 7)
  = (if String.eqb (DDP.mode (self spawned_master)) "ddp"
        && (global_rank t1 =? 0)
        && negb (str_in (distributed_backend t1) ["ddp_spawn"; "ddp_cpu"])
     then train_or_test sample_host else VNone)
  /\ VNone = VNone.
Proof.
  apply (train_returns_payload_only_in_script_mode sample_host
           spawned_master node_worker (VObj (Py.Obj 7)) VNone);
    vm_compute; reflexivity.
Defined.

Example train_in_script_mode_returns_payload :
  (DDP.train sample_host spawned_master).2 = inr (train_or_test sample_host).
Proof. vm_compute. reflexivity. Qed.

Example train_under_slurm_returns_none :
  (DDP.train sample_host slurm_worker).2 = inr VNone
  /\ (DDP2.train sample_host node_worker).2 = inr VNone.
Proof. split; vm_compute; reflexivity. Qed.

(** ** Script-mode setup *)

Lemma bind_ret_run {B A C : Type} (a : A) (k : A -> M B C) (s : State B) :
  bind (ret a) k s = k a s.
Proof. reflexivity. Qed.

Lemma bind_modify_run {B C : Type} (f : State B -> State B)
    (k : unit -> M B C) (s : State B) :
  bind (modify f) k s = k tt (f s).
Proof. reflexivity. Qed.

Lemma bind_lift_run {B A C : Type} (a : A) (k : A -> M B C) (s : State B) :
  bind (lift (inr a)) k s = k a s.
Proof. reflexivity. Qed.

Lemma environ_get_insert_ne (m : gmap string string) (k k' v d : string) :
  k <> k' -> Py.environ_get (<[k := v]> m) k' d = Py.environ_get m k' d.
Proof. intros Hne. unfold Py.environ_get. by rewrite lookup_insert_ne. Qed.

Lemma resolve_script_run (h : Host) (script : string) :
  try_except
    (and_then (inr script)
       (if negb (HYDRA_AVAILABLE h) then (fun p => inr (abspath h p))
        else to_absolute_path h))
    (and_then (inr script) (fun c0 => inr (abspath h c0)))
  = inr (resolve_script h script).
Proof.
  unfold resolve_script. destruct (HYDRA_AVAILABLE h); cbn; [|done].
  by destruct (to_absolute_path h script).
Qed.

Lemma check_can_spawn_fresh (s : State DDP.Backend) :
  DDP._has_spawned_children (self s) = false ->
  DDP._check_can_spawn_children s = (s, inr tt).
Proof. unfold DDP._check_can_spawn_children, bind, get. by intros ->. Qed.

Lemma check_can_spawn_again (s : State DDP.Backend) :
  DDP._has_spawned_children (self s) = true ->
  DDP._check_can_spawn_children s = (s, inl (Py.RuntimeError DDP.reentry_message)).
Proof. unfold DDP._check_can_spawn_children, bind, get. by intros ->. Qed.

Lemma spawn_child_run (h : Host) (command : list string) (i : Z)
    (s : State DDP.Backend) :
  DDP.spawn_child h command i s =
    (log_events [Spawn (child_record h command (os_environ s) i); Sleep]
       (set_trainer
          (set_interactive_ddp_procs
             (interactive_ddp_procs (trainer s)
              ++ [child_record h command (os_environ s) i]) (trainer s)) s),
     inr tt).
Proof. unfold DDP.spawn_child, bind, get. same_run. Qed.

Lemma for_each_spawn_run (h : Host) (command : list string) (xs : list Z)
    (s : State DDP.Backend) :
  for_each xs (DDP.spawn_child h command) s =
    (log_events
       (flat_map (fun i => [Spawn (child_record h command (os_environ s) i); Sleep]) xs)
       (set_trainer
          (set_interactive_ddp_procs
             (interactive_ddp_procs (trainer s)
              ++ map (child_record h command (os_environ s)) xs) (trainer s)) s),
     inr tt).
Proof.
  revert s. induction xs as [|x xs IH]; intros s.
  - cbn [for_each flat_map map]. unfold ret. apply run_eq; try reflexivity.
    + destruct s as [? ? ? []]; cbn. by rewrite app_nil_r.
    + cbn. by rewrite app_nil_r.
  - cbn [for_each]. rewrite (bind_run_ok _ _ _ _ _ (spawn_child_run h command x s)).
    rewrite IH. apply run_eq; try reflexivity.
    + cbn. by rewrite <- app_assoc.
    + cbn. by rewrite <- app_assoc.
Qed.

Lemma script_mode_setup_run (h : Host) (s : State DDP.Backend)
    (script : string) (arguments : list string) :
  global_rank (trainer s) = 0 ->
  DDP._has_spawned_children (self s) = false ->
  sys_argv s = script :: arguments ->
  let environ := exported_environ h (os_environ s) (num_nodes (trainer s)) in
  let command := sys_executable h :: resolve_script h script :: arguments in
  let children := Py.range 1 (num_processes (trainer s)) in
  DDP.__ddp_script_mode_setup h s =
    ({| self := {| DDP.task_idx := Some 0; DDP._has_spawned_children := true;
                   DDP.mode := DDP.mode (self s) |};
        os_environ := environ;
        sys_argv := resolve_script h script :: arguments;
        trainer :=
          set_interactive_ddp_procs (map (child_record h command environ) children)
            (trainer s);
        trace :=
          trace s ++ flat_map (fun i => [Spawn (child_record h command environ i); Sleep])
                       children |},
     inr tt).
Proof.
  intros Hrank Hfresh Hargv environ command children.
  unfold DDP.__ddp_script_mode_setup.
  rewrite bind_get_run, Hrank. cbn [Z.eqb].
  rewrite bind_ret_run, (bind_run_ok _ _ _ _ _ (check_can_spawn_fresh s Hfresh)).
  unfold DDP.set_has_spawned_children, setenv, DDP.set_task_idx, update_trainer.
  rewrite !bind_modify_run, !bind_get_run.
  repeat (rewrite ?bind_modify_run, ?bind_get_run;
          cbn [sys_argv os_environ trainer self set_self set_environ set_argv set_trainer]).
  rewrite Hargv, getitem_head, resolve_script_run, bind_lift_run.
  repeat (rewrite ?bind_modify_run, ?bind_get_run;
          cbn [sys_argv os_environ trainer self set_self set_environ set_argv
               set_trainer insert list_insert]).
  match goal with
  | |- context [bind (for_each ?xs ?body) ?k ?st] =>
      rewrite (bind_run_ok _ k st _ _ (for_each_spawn_run h _ xs st))
  end.
  unfold modify.
  cbn [sys_argv os_environ trainer self set_self set_environ set_argv
       set_trainer log_events set_trace trace interactive_ddp_procs
       set_interactive_ddp_procs num_processes num_nodes app].
  rewrite !environ_get_insert_ne by done.
  subst environ command children.
  unfold exported_environ, forwarded_gpu_ids, exported_node_rank.
  apply run_eq; reflexivity.
Qed.

Lemma script_mode_setup_asserts_rank_0 (h : Host) (s : State DDP.Backend) :
  global_rank (trainer s) <> 0 ->
  DDP.__ddp_script_mode_setup h s = (s, inl Py.AssertionError).
Proof.
  intros Hrank. unfold DDP.__ddp_script_mode_setup.
  rewrite bind_get_run. apply Z.eqb_neq in Hrank. by rewrite Hrank.
Qed.

Lemma script_mode_setup_refuses_reentry (h : Host) (s : State DDP.Backend) :
  global_rank (trainer s) = 0 ->
  DDP._has_spawned_children (self s) = true ->
  DDP.__ddp_script_mode_setup h s = (s, inl (Py.RuntimeError DDP.reentry_message)).
Proof.
  intros Hrank Hspawned. unfold DDP.__ddp_script_mode_setup.
  rewrite bind_get_run, Hrank. cbn [Z.eqb].
  by rewrite bind_ret_run, (bind_run_exc _ _ _ _ _ (check_can_spawn_again s Hspawned)).
Qed.

Lemma script_mode_setup_needs_argv (h : Host) (s : State DDP.Backend) :
  global_rank (trainer s) = 0 ->
  DDP._has_spawned_children (self s) = false ->
  sys_argv s = [] ->
  (DDP.__ddp_script_mode_setup h s).2 = inl Py.IndexError.
Proof.
  intros Hrank Hfresh Hargv. unfold DDP.__ddp_script_mode_setup.
  rewrite bind_get_run, Hrank. cbn [Z.eqb].
  rewrite bind_ret_run, (bind_run_ok _ _ _ _ _ (check_can_spawn_fresh s Hfresh)).
  unfold DDP.set_has_spawned_children, setenv.
  repeat (rewrite ?bind_modify_run, ?bind_get_run;
          cbn [sys_argv os_environ trainer self set_self set_environ set_argv set_trainer]).
  rewrite Hargv. reflexivity.
Qed.

(** A run of script-mode setup that returns started from rank 0, with the
    guard unset and a non-empty command line. *)
Lemma script_mode_setup_ok_inv (h : Host) (s : State DDP.Backend) :
  (DDP.__ddp_script_mode_setup h s).2 = inr tt ->
  global_rank (trainer s) = 0
  /\ DDP._has_spawned_children (self s) = false
  /\ exists script arguments, sys_argv s = script :: arguments.
Proof.
  intros Hok.
  destruct (Z.eq_dec (global_rank (trainer s)) 0) as [Hrank|Hrank];
    [|by rewrite script_mode_setup_asserts_rank_0 in Hok].
  destruct (DDP._has_spawned_children (self s)) eqn:Hspawned;
    [by rewrite script_mode_setup_refuses_reentry in Hok|].
  destruct (sys_argv s) as [|script arguments] eqn:Hargv;
    [by rewrite script_mode_setup_needs_argv in Hok|].
  eauto.
Qed.

(** Once the guard is set, script-mode setup raises before it touches
    anything: the re-entry error on rank 0, the failed rank assertion on
    any other rank. *)
Lemma guarded_setup_changes_nothing (h : Host) (s : State DDP.Backend) :
  DDP._has_spawned_children (self s) = true ->
  DDP.__ddp_script_mode_setup h s
  = (s, inl (if global_rank (trainer s) =? 0
             then Py.RuntimeError DDP.reentry_message
             else Py.AssertionError)).
Proof.
  intros Hspawned.
  destruct (Z.eq_dec (global_rank (trainer s)) 0) as [Hrank|Hrank].
  - rewrite Hrank. by apply script_mode_setup_refuses_reentry.
  - rewrite script_mode_setup_asserts_rank_0 by done.
    apply Z.eqb_neq in Hrank. by rewrite Hrank.
Qed.

(** C7. If one call of script-mode setup has returned, a second call in
    the resulting state raises the re-entry [RuntimeError] and changes
    nothing: no process is started and the list of child records is the
    one the first call built, with one record per local rank from 1 up to
    [num_processes - 1]. *)
Theorem second_spawn_is_refused (h h' : Host) (s s' : State DDP.Backend) :
  DDP.__ddp_script_mode_setup h s = (s', inr tt) ->
  DDP.__ddp_script_mode_setup h' s' = (s', inl (Py.RuntimeError DDP.reentry_message))
  /\ length (interactive_ddp_procs (trainer s'))
     = Z.to_nat (num_processes (trainer s) - 1).
Proof.
  intros Hfirst.
  destruct (script_mode_setup_ok_inv h s) as (Hrank & Hfresh & script & arguments & Hargv);
    [by rewrite Hfirst|].
  rewrite (script_mode_setup_run h s script arguments Hrank Hfresh Hargv) in Hfirst.
  injection Hfirst as <-. split.
  - by apply script_mode_setup_refuses_reentry.
  - cbn. unfold Py.range. by rewrite length_map, length_seqZ.
Qed.

Lemma second_spawn_is_refused_witness :
  let s := sample_state (DDP.init "ddp") {["CUDA_VISIBLE_DEVICES" := "2,5"]} sample_trainer in
  DDP.__ddp_script_mode_setup sample_host spawned_master
  = (spawned_master, inl (Py.RuntimeError DDP.reentry_message))
  /\ length (interactive_ddp_procs (trainer spawned_master))
     = Z.to_nat (num_processes (trainer s) - 1).
Proof.
  intros s.
  apply (second_spawn_is_refused sample_host sample_host s spawned_master).
  vm_compute. reflexivity.
Defined.

(** ** Children of the master *)

Lemma map_fmap {A C : Type} (f : A -> C) (l : list A) : map f l = f <$> l.
Proof. reflexivity. Qed.

Lemma str_inj (a b : Z) : Py.str a = Py.str b -> a = b.
Proof. unfold Py.str. apply (inj pretty). Qed.

(** C8. With [num_processes = N >= 1], one call of script-mode setup on a
    master (rank 0, guard unset) returns after starting exactly [N - 1]
    children.  The child at position [i] runs the interpreter on the
    command line whose script path has been replaced by its absolute
    path ([abspath], or [to_absolute_path] where hydra is available and
    does not fail), has [LOCAL_RANK]
    set to [i + 1], and has every other variable as in the parent's
    environment after the exports; the [LOCAL_RANK] values are pairwise
    distinct.  The master keeps [LOCAL_RANK = 0] and task index 0. *)
Theorem script_mode_spawns_children (h : Host) (s : State DDP.Backend)
    (script : string) (arguments : list string) :
  global_rank (trainer s) = 0 ->
  DDP._has_spawned_children (self s) = false ->
  sys_argv s = script :: arguments ->
  1 <= num_processes (trainer s) ->
  let r := DDP.__ddp_script_mode_setup h s in
  let parent := os_environ r.1 in
  let children := interactive_ddp_procs (trainer r.1) in
  r.2 = inr tt
  /\ Z.of_nat (length children) = num_processes (trainer s) - 1
  /\ trace r.1 = (trace s ++ flat_map (fun p => [Spawn p; Sleep]) children)%list
  /\ (sys_argv r.1 = abspath h script :: arguments
      \/ exists path, HYDRA_AVAILABLE h = true
           /\ to_absolute_path h script = inr path
           /\ sys_argv r.1 = path :: arguments)
  /\ (forall (i : nat) (p : Process), children !! i = Some p ->
        args p = sys_executable h :: sys_argv r.1
        /\ env p !! "LOCAL_RANK" = Some (Py.str (1 + Z.of_nat i))
        /\ forall k, k <> "LOCAL_RANK" -> env p !! k = parent !! k)
  /\ NoDup (map (fun p => env p !! "LOCAL_RANK") children)
  /\ parent !! "LOCAL_RANK" = Some "0"
  /\ DDP.task_idx (self r.1) = Some 0.
Proof.
  intros Hrank Hfresh Hargv HN r parent children. subst r parent children.
  rewrite (script_mode_setup_run h s script arguments Hrank Hfresh Hargv).
  cbn [fst snd trainer self os_environ sys_argv trace interactive_ddp_procs
       set_interactive_ddp_procs DDP.task_idx].
  set (environ := exported_environ h (os_environ s) (num_nodes (trainer s))).
  set (command := sys_executable h :: resolve_script h script :: arguments).
  split; [reflexivity|].
  split; [unfold Py.range; rewrite length_map, length_seqZ; lia|].
  split.
  { f_equal. generalize (Py.range 1 (num_processes (trainer s))).
    induction l as [|x l IH]; cbn; [done|]. by rewrite IH. }
  split.
  { unfold resolve_script. destruct (HYDRA_AVAILABLE h); cbn; [|by left].
    destruct (to_absolute_path h script) as [e|path]; [by left|].
    right. by exists path. }
  split.
  { intros i p Hp. rewrite map_fmap in Hp.
    apply list_lookup_fmap_Some in Hp as (x & -> & Hx).
    unfold Py.range in Hx. apply lookup_seqZ in Hx as [-> _].
    split; [reflexivity|]. cbn. split; [by rewrite lookup_insert_eq|].
    intros k Hk. by rewrite lookup_insert_ne. }
  split.
  { rewrite map_map, map_fmap. apply NoDup_fmap_2; [|apply NoDup_seqZ].
    intros a b Hab. cbn in Hab. rewrite !lookup_insert_eq in Hab.
    apply str_inj. congruence. }
  split; [|reflexivity].
  subst environ. unfold exported_environ.
  rewrite lookup_insert_ne by done. rewrite lookup_insert_ne by done.
  by rewrite lookup_insert_eq.
Qed.

Lemma script_mode_spawns_children_witness :
  let s := sample_state (DDP.init "ddp") {["CUDA_VISIBLE_DEVICES" := "2,5"]} sample_trainer in
  let r := DDP.__ddp_script_mode_setup sample_host s in
  r.2 = inr tt
  /\ Z.of_nat (length (interactive_ddp_procs (trainer r.1))) = 3 - 1
  /\ DDP.task_idx (self r.1) = Some 0.
Proof.
  intros s r.
  destruct (script_mode_spawns_children sample_host s "train.py" ["--gpus"; "2"])
    as (Hok & Hlen & _ & _ & _ & _ & _ & Htask);
    [reflexivity | reflexivity | reflexivity | cbn; lia | ].
  auto.
Defined.

Example spawn_three_processes :
  map (fun p => (args p, env p !! "LOCAL_RANK", env p !! "WORLD_SIZE"))
      (interactive_ddp_procs (trainer spawned_master))
  = [(["/usr/bin/python"; "/work/train.py"; "--gpus"; "2"], Some "1", Some "2");
     (["/usr/bin/python"; "/work/train.py"; "--gpus"; "2"], Some "2", Some "2")].
Proof. vm_compute. reflexivity. Qed.

(** ** Node rank and world size exported by script-mode setup *)

Lemma script_mode_setup_environ (h : Host) (s : State DDP.Backend)
    (script : string) (arguments : list string) :
  global_rank (trainer s) = 0 ->
  DDP._has_spawned_children (self s) = false ->
  sys_argv s = script :: arguments ->
  os_environ (DDP.__ddp_script_mode_setup h s).1
  = exported_environ h (os_environ s) (num_nodes (trainer s)).
Proof.
  intros Hrank Hfresh Hargv.
  by rewrite (script_mode_setup_run h s script arguments Hrank Hfresh Hargv).
Qed.

(** C5, as the code has it.  Script-mode setup on a master exports as
    [NODE_RANK] the value of [GROUP_RANK] when that is set, otherwise the
    value of [NODE_RANK] when that is set, otherwise ["0"]; and it always
    exports [LOCAL_RANK = "0"]. *)
Theorem script_mode_node_rank (h : Host) (s : State DDP.Backend)
    (script : string) (arguments : list string) :
  global_rank (trainer s) = 0 ->
  DDP._has_spawned_children (self s) = false ->
  sys_argv s = script :: arguments ->
  let exported := os_environ (DDP.__ddp_script_mode_setup h s).1 in
  exported !! "NODE_RANK"
  = Some match os_environ s !! "GROUP_RANK" with
         | Some group_rank => group_rank
         | None =>
             match os_environ s !! "NODE_RANK" with
             | Some node_rank => node_rank
             | None => "0"
             end
         end
  /\ exported !! "LOCAL_RANK" = Some "0".
Proof.
  intros Hrank Hfresh Hargv exported. subst exported.
  rewrite (script_mode_setup_environ h s script arguments Hrank Hfresh Hargv).
  unfold exported_environ. split.
  - do 3 (rewrite lookup_insert_ne by done). rewrite lookup_insert_eq.
    unfold exported_node_rank, Py.environ_get.
    destruct (os_environ s !! "GROUP_RANK"); [done|].
    by destruct (os_environ s !! "NODE_RANK").
  - do 2 (rewrite lookup_insert_ne by done). by rewrite lookup_insert_eq.
Qed.

Lemma script_mode_node_rank_witness :
  os_environ (DDP.__ddp_script_mode_setup sample_host both_ranks_set).1 !! "NODE_RANK"
  = Some "2"
  /\ os_environ (DDP.__ddp_script_mode_setup sample_host both_ranks_set).1 !! "LOCAL_RANK"
     = Some "0".
Proof.
  apply (script_mode_node_rank sample_host both_ranks_set "train.py" ["--gpus"; "2"]);
    reflexivity.
Defined.

(** With both variables set, the exported node rank is the group rank,
    not the operator's [NODE_RANK]. *)
Lemma node_rank_operator_value_overridden :
  (DDP.__ddp_script_mode_setup sample_host both_ranks_set).2 = inr tt
  /\ os_environ both_ranks_set !! "NODE_RANK" = Some "1"
  /\ spec_node_rank (os_environ both_ranks_set) = "1"
  /\ os_environ (DDP.__ddp_script_mode_setup sample_host both_ranks_set).1 !! "NODE_RANK"
     <> Some (spec_node_rank (os_environ both_ranks_set)).
Proof. vm_compute. repeat split; try reflexivity. discriminate. Qed.

(** The four combinations of presence, on the sample master. *)
Example node_rank_combinations :
  let exported e :=
    os_environ (DDP.__ddp_script_mode_setup sample_host
                  (sample_state (DDP.init "ddp") e sample_trainer)).1 !! "NODE_RANK" in
  exported ∅ = Some "0"
  /\ exported {["NODE_RANK" := "1"]} = Some "1"
  /\ exported {["GROUP_RANK" := "2"]} = Some "2"
  /\ exported {["NODE_RANK" := "1"; "GROUP_RANK" := "2"]} = Some "2".
Proof. vm_compute. repeat split; reflexivity. Qed.

(** The world size that script-mode setup exports. *)
Lemma script_mode_world_size (h : Host) (s : State DDP.Backend)
    (script : string) (arguments : list string) :
  global_rank (trainer s) = 0 ->
  DDP._has_spawned_children (self s) = false ->
  sys_argv s = script :: arguments ->
  os_environ (DDP.__ddp_script_mode_setup h s).1 !! "WORLD_SIZE"
  = Some (Py.str (Z.max 1 (Z.of_nat (length (Py.split_comma
                                               (forwarded_gpu_ids (os_environ s)))))
                  * num_nodes (trainer s))).
Proof.
  intros Hrank Hfresh Hargv.
  rewrite (script_mode_setup_environ h s script arguments Hrank Hfresh Hargv).
  unfold exported_environ. by rewrite lookup_insert_eq.
Qed.

(** Unless the visible-device string is exactly one character long, the
    exported world size is the number of visible devices, at least 1,
    times the number of nodes. *)
Lemma world_size_agrees_unless_one_character (environ : gmap string string)
    (num_nodes : Z) :
  Py.len (Py.environ_get environ "CUDA_VISIBLE_DEVICES" "") <> 1 ->
  Z.max 1 (Z.of_nat (length (Py.split_comma (forwarded_gpu_ids environ)))) * num_nodes
  = spec_world_size (environ !! "CUDA_VISIBLE_DEVICES") num_nodes.
Proof.
  intros Hlen. unfold forwarded_gpu_ids, spec_world_size, visible_device_count.
  apply Z.eqb_neq in Hlen. rewrite Hlen.
  unfold Py.environ_get. f_equal.
  destruct (default "" (environ !! "CUDA_VISIBLE_DEVICES")) as [|c r] eqn:Hd.
  - reflexivity.
  - cbn [String.eqb]. pose proof (split_comma_nonempty (String c r)). lia.
Qed.

(** A one-character device string other than a comma is counted as two
    devices. *)
Lemma world_size_doubles_on_one_character (environ : gmap string string) (c : ascii) :
  environ !! "CUDA_VISIBLE_DEVICES" = Some (String c "") ->
  c <> ","%char ->
  Z.max 1 (Z.of_nat (length (Py.split_comma (forwarded_gpu_ids environ)))) = 2.
Proof.
  intros Hdev Hc. unfold forwarded_gpu_ids, Py.environ_get. rewrite Hdev.
  unfold Py.len. cbn -[Ascii.eqb].
  change (Z.of_nat 1 =? 1) with true. cbn -[Ascii.eqb].
  change (String c "" +:+ ",") with (String c ",").
  cbn [Py.split_comma]. apply Ascii.eqb_neq in Hc. by rewrite Hc.
Qed.

(** C4, at one visible device on one node.  Script-mode setup exports
    [WORLD_SIZE = "2"], and forwards the devices as ["0,"], where the
    number of visible devices, at least 1, times the number of nodes
    is 1. *)
Theorem world_size_for_one_visible_device :
  (DDP.__ddp_script_mode_setup sample_host one_visible_device).2 = inr tt
  /\ os_environ (DDP.__ddp_script_mode_setup sample_host one_visible_device).1
       !! "WORLD_SIZE" = Some "2"
  /\ os_environ (DDP.__ddp_script_mode_setup sample_host one_visible_device).1
       !! "PL_TRAINER_GPUS" = Some "0,"
  /\ Py.str (spec_world_size (os_environ one_visible_device !! "CUDA_VISIBLE_DEVICES")
               (num_nodes (trainer one_visible_device))) = "1".
Proof. vm_compute. repeat split; reflexivity. Qed.

Example world_size_other_device_lists :
  let exported e :=
    os_environ (DDP.__ddp_script_mode_setup sample_host
                  (sample_state (DDP.init "ddp") e (with_topology 0 2 1 sample_trainer))).1
      !! "WORLD_SIZE" in
  exported ∅ = Some "2"
  /\ exported {["CUDA_VISIBLE_DEVICES" := "0,1,2"]} = Some "6"
  /\ exported {["CUDA_VISIBLE_DEVICES" := "10"]} = Some "2"
  /\ exported {["CUDA_VISIBLE_DEVICES" := "3"]} = Some "4".
Proof. vm_compute. repeat split; reflexivity. Qed.

(** ** Rank resolution from the environment *)

(** Under SLURM a missing [SLURM_LOCALID] surfaces as the [KeyError] of
    the dictionary lookup in both backends, which is not a
    [MisconfigurationException]. *)
Lemma slurm_missing_local_id_is_key_error :
  DDP.setup sample_host slurm_without_local_id
  = (slurm_without_local_id, inl (Py.KeyError "SLURM_LOCALID"))
  /\ DDP2.setup node_slurm_without_local_id
     = (node_slurm_without_local_id, inl (Py.KeyError "SLURM_LOCALID"))
  /\ (forall m, (DDP.setup sample_host slurm_without_local_id).2
                <> inl (Py.MisconfigurationException m))
  /\ (forall m, (DDP2.setup node_slurm_without_local_id).2
                <> inl (Py.MisconfigurationException m)).
Proof. repeat split; try reflexivity; intros m; vm_compute; discriminate. Qed.

(** C6, as the code has it.  Under SLURM both backends read
    [SLURM_LOCALID]: its integer value becomes the task index, and when
    it is unset the lookup's [KeyError] is raised and nothing changes.
    Outside SLURM the whole-node backend reads [LOCAL_RANK]: its integer
    value becomes the task index, and when it is unset or not an integer
    literal a [MisconfigurationException] is raised whose message names
    [WORLD_SIZE], [LOCAL_RANK] and [GROUP_RANK], and nothing changes. *)
Theorem rank_resolution_errors (h : Host) (s1 : State DDP.Backend)
    (s2 s3 : State DDP2.Backend) :
  DDP.mode (self s1) = "slurm_ddp" ->
  is_slurm_managing_tasks (trainer s2) = true ->
  is_slurm_managing_tasks (trainer s3) = false ->
  (os_environ s1 !! "SLURM_LOCALID" = None ->
     DDP.setup h s1 = (s1, inl (Py.KeyError "SLURM_LOCALID")))
  /\ (forall v n, os_environ s1 !! "SLURM_LOCALID" = Some v -> Py.int v = inr n ->
        (DDP.setup h s1).2 = inr tt
        /\ DDP.task_idx (self (DDP.setup h s1).1) = Some n)
  /\ (os_environ s2 !! "SLURM_LOCALID" = None ->
        DDP2.setup s2 = (s2, inl (Py.KeyError "SLURM_LOCALID")))
  /\ (forall v n, os_environ s2 !! "SLURM_LOCALID" = Some v -> Py.int v = inr n ->
        (DDP2.setup s2).2 = inr tt
        /\ DDP2.task_idx (self (DDP2.setup s2).1) = Some n)
  /\ (os_environ s3 !! "LOCAL_RANK" = None
      \/ (exists v e, os_environ s3 !! "LOCAL_RANK" = Some v /\ Py.int v = inl e) ->
        DDP2.setup s3 = (s3, inl (Py.MisconfigurationException DDP2.elastic_message)))
  /\ (forall v n, os_environ s3 !! "LOCAL_RANK" = Some v -> Py.int v = inr n ->
        (DDP2.setup s3).2 = inr tt
        /\ DDP2.task_idx (self (DDP2.setup s3).1) = Some n)
  /\ contains "WORLD_SIZE" DDP2.elastic_message = true
  /\ contains "LOCAL_RANK" DDP2.elastic_message = true
  /\ contains "GROUP_RANK" DDP2.elastic_message = true.
Proof.
  intros Hmode Hslurm Helastic.
  unfold DDP.setup, DDP.__slurm_setup, DDP2.setup, DDP2._resolve_task_idx.
  rewrite !bind_get_run, Hmode, Hslurm, Helastic.
  change (String.eqb "slurm_ddp" "ddp") with false.
  change (String.eqb "slurm_ddp" "slurm_ddp") with true. cbv iota.
  rewrite !bind_get_run.
  unfold bind, lift, and_then, raise, Py.environ_getitem.
  split; [by intros ->|].
  split; [by intros v n -> ->|].
  split; [by intros ->|].
  split; [by intros v n -> ->|].
  split; [intros [-> | (v & e & -> & ->)]; reflexivity|].
  split; [by intros v n -> ->|].
  repeat split.
Qed.

Lemma rank_resolution_errors_witness :
  DDP.setup sample_host slurm_without_local_id
  = (slurm_without_local_id, inl (Py.KeyError "SLURM_LOCALID"))
  /\ DDP2.setup node_slurm_without_local_id
     = (node_slurm_without_local_id, inl (Py.KeyError "SLURM_LOCALID"))
  /\ DDP2.setup node_elastic_malformed
     = (node_elastic_malformed, inl (Py.MisconfigurationException DDP2.elastic_message)).
Proof.
  destruct (rank_resolution_errors sample_host slurm_without_local_id
              node_slurm_without_local_id node_elastic_malformed)
    as (H1 & _ & H2 & _ & H3 & _); [reflexivity | reflexivity | reflexivity |].
  split; [apply H1; reflexivity|].
  split; [apply H2; reflexivity|].
  apply H3. right. exists "one", Py.ValueError. split; reflexivity.
Defined.

Example rank_resolution_reads_the_variable :
  DDP.task_idx (self slurm_worker) = Some 0
  /\ DDP2.task_idx (self node_worker) = Some 0
  /\ DDP2.task_idx (self (DDP2.setup
       (sample_state DDP2.init {["LOCAL_RANK" := "3"]}
          (with_backend "ddp2" false false None sample_trainer))).1) = Some 3.
Proof. vm_compute. repeat split; reflexivity. Qed.

(** In elastic mode the per-device backend lets the lookup's [KeyError]
    through. *)
Example torchelastic_missing_local_rank :
  DDP.setup sample_host
    (sample_state (DDP.init "torchelastic_ddp") ∅ sample_trainer)
  = (sample_state (DDP.init "torchelastic_ddp") ∅ sample_trainer,
     inl (Py.KeyError "LOCAL_RANK")).
Proof. reflexivity. Qed.

(** ** Fit-end state transfer *)

(** C2, at a best path below a directory named [ckpt].  On rank 0 of a
    ['ddp_spawn'] run with a queue, three messages are put in order and
    the weights are saved before the third; the path saved to and sent is
    ["/data.tmp_end.ckpt/epoch=2.tmp_end.ckpt"], where substituting the
    extension of the best path gives
    ["/data/ckpt/epoch=2.tmp_end.ckpt"]. *)
Theorem fit_end_last_path_below_ckpt_directory :
  let best := "/data/ckpt/epoch=2.ckpt" in
  let q := SimpleQueue 1 in
  let results := VObj (Py.Obj 7) in
  transfer_distrib_spawn_state_on_fit_end (Some q) results (spawn_rank_0 false (Some best))
  = (log_events
       [RankZeroWarn "cleaning up ddp environment...";
        QueuePut q (VStr best);
        QueuePut q results;
        AtomicSave "/data.tmp_end.ckpt/epoch=2.tmp_end.ckpt";
        QueuePut q (VStr "/data.tmp_end.ckpt/epoch=2.tmp_end.ckpt")]
       (spawn_rank_0 false (Some best)),
     inr tt)
  /\ substitute_extension best = "/data/ckpt/epoch=2.tmp_end.ckpt"
  /\ Py.re_sub_ckpt best <> substitute_extension best.
Proof. repeat split. vm_compute. discriminate. Qed.

Example fit_end_last_path_plain_file :
  let q := SimpleQueue 1 in
  let results := VObj (Py.Obj 7) in
  trace (transfer_distrib_spawn_state_on_fit_end (Some q) results
           (spawn_rank_0 false (Some "epoch=2.ckpt"))).1
  = [RankZeroWarn "cleaning up ddp environment...";
     QueuePut q (VStr "epoch=2.ckpt");
     QueuePut q results;
     AtomicSave "epoch=2.tmp_end.ckpt";
     QueuePut q (VStr "epoch=2.tmp_end.ckpt")]
  /\ trace (transfer_distrib_spawn_state_on_fit_end (Some q) results
              (spawn_rank_0 true (Some "epoch=2.ckpt"))).1
     = [RankZeroWarn "cleaning up ddp environment...";
        QueuePut q (VStr "epoch=2.ckpt");
        QueuePut q results;
        QueuePut q VNone].
Proof. split; reflexivity. Qed.

(** A best path without the letters [ckpt] is its own last-weights path:
    the weights are saved over the best checkpoint. *)
Example fit_end_last_path_other_extension :
  Py.re_sub_ckpt "best.pt" = "best.pt".
Proof. reflexivity. Qed.

(** * Further properties *)

(** ** The calls of each step, exactly *)

Section ExactSteps.
Context {B : Type}.

Lemma progress_bar_run (process_idx : Z) (s : State B) :
  progress_bar_only_on_rank_0 process_idx s
  = (log_events (progress_events (trainer s) process_idx) s, inr tt).
Proof.
  unfold progress_bar_only_on_rank_0, progress_events. rewrite bind_get_run.
  destruct (_ && _); cbn [when]; [reflexivity|].
  unfold ret. by rewrite log_events_nil.
Qed.

Lemma connect_run (s : State B) :
  connect s = (log_events (connect_events (trainer s)) s, inr tt).
Proof. unfold connect, connect_events, bind, get. same_run. Qed.

Lemma sync_run (s : State B) :
  when (sync_batchnorm (trainer s)) (emit ConfigureSyncBatchnorm) s
  = (log_events (sync_events (trainer s)) s, inr tt).
Proof.
  unfold sync_events. destruct (sync_batchnorm (trainer s)); cbn [when]; [reflexivity|].
  unfold ret. by rewrite log_events_nil.
Qed.

Lemma choose_optimizer_run (s : State B) :
  choose_optimizer s = (log_events (optimizer_events (trainer s)) s, inr tt).
Proof.
  unfold choose_optimizer, optimizer_events, bind, get.
  destruct (amp_backend (trainer s)) as [[]|] eqn:Hamp; cbn; rewrite ?Hamp; same_run.
Qed.

Lemma transfer_run (mp_queue : option Queue) (results : Value) (s : State B) :
  transfer_distrib_spawn_state_on_fit_end mp_queue results s
  = (log_events (fit_end_events (trainer s) mp_queue results) s, inr tt).
Proof.
  unfold fit_end_events, tracked_best_path.
  destruct mp_queue as [q|];
    [|by rewrite transfer_noop, log_events_nil by auto].
  destruct (str_in _ _) eqn:Hfamily;
    [|by rewrite transfer_noop, log_events_nil by auto].
  destruct (global_rank (trainer s) =? 0) eqn:Hrank.
  - apply Z.eqb_eq in Hrank.
    rewrite (transfer_three_messages q results s Hfamily Hrank).
    cbn [andb]. f_equal. f_equal. f_equal.
    destruct (checkpoint_callback (trainer s)) as [[[p|]]|]; cbn; try reflexivity.
    destruct (testing (trainer s)); cbn; [reflexivity|].
    destruct (String.eqb p ""); reflexivity.
  - apply Z.eqb_neq in Hrank.
    by rewrite transfer_noop, log_events_nil by auto.
Qed.

(** Device binding either fails in the master's lookup of its device,
    leaving the state as it was, or does nothing on a CPU run, or records
    the chosen device and binds it. *)
Lemma bind_device_outcome (process_idx : Z) (is_master : bool) (s : State B) :
  match bind_device process_idx is_master s with
  | (s', inl e) =>
      s' = s /\ on_gpu (trainer s) = true /\ is_master = true
      /\ e = device_lookup_error (os_environ s) (local_rank (trainer s))
  | (s', inr _) =>
      (on_gpu (trainer s) = false /\ s' = s)
      \/ (on_gpu (trainer s) = true
          /\ exists d, s' = log_events [CudaSetDevice d; ModelCuda d]
                             (set_trainer (set_root_gpu d (trainer s)) s)
                       /\ device_chosen (os_environ s) (local_rank (trainer s))
                            is_master process_idx d)
  end.
Proof.
  unfold bind_device, device_lookup_error, device_chosen. rewrite bind_get_run.
  destruct (on_gpu (trainer s)) eqn:Hgpu; [|left; auto].
  destruct is_master.
  - unfold bind, lift, Py.environ_getitem.
    destruct (os_environ s !! "CUDA_VISIBLE_DEVICES") as [v|]; [|auto 10].
    destruct (Py.getitem (Py.split_comma v) (local_rank (trainer s))) as [e|g] eqn:Hget.
    { repeat split. revert Hget. unfold Py.getitem.
      destruct (_ && _); [|congruence]. destruct (_ !! _); congruence. }
    destruct (Py.int g) as [e|d] eqn:Hint.
    { repeat split. revert Hint. unfold Py.int. cbv zeta.
      match goal with
      | |- context [match ?x with Some _ => _ | None => _ end] => destruct x
      end; congruence. }
    right. split; [done|]. exists d. split; [|by exists v, g].
    apply state_eq; try reflexivity. cbn. by rewrite <- app_assoc.
  - rewrite bind_ret_run. right. split; [done|]. exists process_idx.
    split; [|reflexivity].
    unfold bind. cbn. apply state_eq; try reflexivity.
    cbn. by rewrite <- app_assoc.
Qed.

End ExactSteps.

Ltac step_with lem :=
  match goal with
  | |- context [bind ?m ?k ?st] => rewrite (bind_run_ok m k st _ _ (lem st))
  end.

(** ** [ddp_train], call by call *)

Lemma DDP_ddp_train_events (h : Host) (process_idx : Z) (mp_queue : option Queue)
    (is_master : bool) (proc_offset : Z) (s : State DDP.Backend) :
  let p := process_idx + proc_offset in
  let t := trainer s in
  let ranked :=
    set_ranks p (node_rank t * num_processes t + p) (num_nodes t * num_processes t) t in
  let s2 :=
    log_events (progress_events t p ++ connect_events ranked ++ sync_events t)
      (set_trainer ranked s) in
  DDP.ddp_train h process_idx mp_queue is_master proc_offset s
  = match bind_device p is_master s2 with
    | (s3, inl e) => (s3, inl e)
    | (s3, inr _) =>
        (log_events
           (optimizer_events (trainer s3)
            ++ [ConfigureDDP (ddp_device_ids (trainer s3)); SetupTraining; TrainOrTest]
            ++ fit_end_events (trainer s3) mp_queue (train_or_test h)
            ++ [CudaEmptyCache]) s3,
         inr (ddp_returned h (trainer s3)))
    end.
Proof.
  intros p t ranked s2. unfold DDP.ddp_train. cbv zeta. fold p.
  step_with (progress_bar_run (B := DDP.Backend) p).
  rewrite bind_update_trainer_run.
  step_with (connect_run (B := DDP.Backend)).
  rewrite bind_get_run.
  step_with (sync_run (B := DDP.Backend)).
  match goal with
  | |- context [bind _ _ ?st] =>
      replace st with s2
        by (apply state_eq; try reflexivity; cbn; by rewrite <- ?app_assoc)
  end.
  destruct (bind_device p is_master s2) as [s3 [e|[]]] eqn:Hbd.
  - by rewrite (bind_run_exc _ _ _ _ _ Hbd).
  - rewrite (bind_run_ok _ _ _ _ _ Hbd).
    step_with (choose_optimizer_run (B := DDP.Backend)).
    rewrite bind_get_run.
    do 3 step_emit.
    step_with (transfer_run (B := DDP.Backend) mp_queue (train_or_test h)).
    step_emit.
    rewrite bind_get_run, !log_events_app.
    unfold ddp_returned, ddp_device_ids. cbn [trainer log_events set_trace].
    destruct (_ && _); unfold ret; f_equal; f_equal; by rewrite <- ?app_assoc.
Qed.

Lemma DDP2_ddp_train_events (h : Host) (process_idx : Z) (mp_queue : option Queue)
    (is_master : bool) (proc_offset : Z) (s : State DDP2.Backend) :
  let p := process_idx + proc_offset in
  let t := trainer s in
  let ranked := set_ranks (node_rank t) (node_rank t) (num_nodes t) t in
  let s2 :=
    log_events (progress_events t p ++ connect_events ranked) (set_trainer ranked s) in
  DDP2.ddp_train h process_idx mp_queue is_master proc_offset s
  = match bind_device p is_master s2 with
    | (s3, inl e) => (s3, inl e)
    | (s3, inr _) =>
        (log_events
           (optimizer_events (trainer s3)
            ++ [ConfigureDDP (map Some <$> data_parallel_device_ids (trainer s3));
                SetupTraining; TrainOrTest]
            ++ fit_end_events (trainer s3) mp_queue (train_or_test h)
            ++ [CudaEmptyCache]) s3,
         inr tt)
    end.
Proof.
  intros p t ranked s2. unfold DDP2.ddp_train. cbv zeta. fold p.
  step_with (progress_bar_run (B := DDP2.Backend) p).
  rewrite bind_update_trainer_run.
  step_with (connect_run (B := DDP2.Backend)).
  match goal with
  | |- context [bind _ _ ?st] =>
      replace st with s2
        by (apply state_eq; try reflexivity; cbn; by rewrite <- ?app_assoc)
  end.
  destruct (bind_device p is_master s2) as [s3 [e|[]]] eqn:Hbd.
  - by rewrite (bind_run_exc _ _ _ _ _ Hbd).
  - rewrite (bind_run_ok _ _ _ _ _ Hbd).
    step_with (choose_optimizer_run (B := DDP2.Backend)).
    rewrite bind_get_run.
    do 3 step_emit.
    step_with (transfer_run (B := DDP2.Backend) mp_queue (train_or_test h)).
    rewrite emit_run, !log_events_app.
    cbn [trainer log_events set_trace].
    f_equal; f_equal; by rewrite <- ?app_assoc.
Qed.

(** Every run of [DDPBackend.ddp_train]: it raises from the master's
    device lookup, or it returns after the calls listed. *)
Lemma DDP_ddp_train_cases (h : Host) (process_idx : Z) (mp_queue : option Queue)
    (is_master : bool) (proc_offset : Z) (s : State DDP.Backend) :
  let p := process_idx + proc_offset in
  let t := trainer s in
  let ranked :=
    set_ranks p (node_rank t * num_processes t + p) (num_nodes t * num_processes t) t in
  let pre := (progress_events t p ++ connect_events ranked ++ sync_events t)%list in
  let r := DDP.ddp_train h process_idx mp_queue is_master proc_offset s in
  (exists e,
     r = ({| self := self s; os_environ := os_environ s; sys_argv := sys_argv s;
             trainer := ranked; trace := trace s ++ pre |}, inl e)
     /\ on_gpu t = true /\ is_master = true
     /\ e = device_lookup_error (os_environ s) (local_rank ranked))
  \/ (exists bound t3,
        ((on_gpu t = false /\ bound = [] /\ t3 = ranked)
         \/ (on_gpu t = true
             /\ exists d, bound = [CudaSetDevice d; ModelCuda d]
                          /\ t3 = set_root_gpu d ranked
                          /\ device_chosen (os_environ s) (local_rank ranked)
                               is_master p d))
        /\ r = ({| self := self s; os_environ := os_environ s; sys_argv := sys_argv s;
                   trainer := t3;
                   trace := trace s ++ pre ++ bound ++ optimizer_events t3
                            ++ [ConfigureDDP (ddp_device_ids t3); SetupTraining;
                                TrainOrTest]
                            ++ fit_end_events t3 mp_queue (train_or_test h)
                            ++ [CudaEmptyCache] |},
                inr (ddp_returned h t3))).
Proof.
  intros p t ranked pre r. subst r.
  rewrite DDP_ddp_train_events. fold p t ranked pre.
  pose proof (bind_device_outcome p is_master (log_events pre (set_trainer ranked s)))
    as Hout.
  destruct (bind_device p is_master _) as [s3 [e|[]]].
  - destruct Hout as (-> & Hgpu & Hm & He). left. exists e. auto.
  - right. destruct Hout as [[Hgpu ->] | [Hgpu [d [-> Hd]]]].
    + exists [], ranked. split; [auto|]. apply run_eq; try reflexivity.
      cbn. by rewrite <- ?app_assoc.
    + exists [CudaSetDevice d; ModelCuda d], (set_root_gpu d ranked).
      split; [right; eauto|]. apply run_eq; try reflexivity.
      cbn. by rewrite <- ?app_assoc.
Qed.

Lemma DDP2_ddp_train_cases (h : Host) (process_idx : Z) (mp_queue : option Queue)
    (is_master : bool) (proc_offset : Z) (s : State DDP2.Backend) :
  let p := process_idx + proc_offset in
  let t := trainer s in
  let ranked := set_ranks (node_rank t) (node_rank t) (num_nodes t) t in
  let pre := (progress_events t p ++ connect_events ranked)%list in
  let r := DDP2.ddp_train h process_idx mp_queue is_master proc_offset s in
  (exists e,
     r = ({| self := self s; os_environ := os_environ s; sys_argv := sys_argv s;
             trainer := ranked; trace := trace s ++ pre |}, inl e)
     /\ on_gpu t = true /\ is_master = true
     /\ e = device_lookup_error (os_environ s) (local_rank ranked))
  \/ (exists bound t3,
        ((on_gpu t = false /\ bound = [] /\ t3 = ranked)
         \/ (on_gpu t = true
             /\ exists d, bound = [CudaSetDevice d; ModelCuda d]
                          /\ t3 = set_root_gpu d ranked
                          /\ device_chosen (os_environ s) (local_rank ranked)
                               is_master p d))
        /\ r = ({| self := self s; os_environ := os_environ s; sys_argv := sys_argv s;
                   trainer := t3;
                   trace := trace s ++ pre ++ bound ++ optimizer_events t3
                            ++ [ConfigureDDP (map Some <$> data_parallel_device_ids t3);
                                SetupTraining; TrainOrTest]
                            ++ fit_end_events t3 mp_queue (train_or_test h)
                            ++ [CudaEmptyCache] |},
                inr tt)).
Proof.
  intros p t ranked pre r. subst r.
  rewrite DDP2_ddp_train_events. fold p t ranked pre.
  pose proof (bind_device_outcome p is_master (log_events pre (set_trainer ranked s)))
    as Hout.
  destruct (bind_device p is_master _) as [s3 [e|[]]].
  - destruct Hout as (-> & Hgpu & Hm & He). left. exists e. auto.
  - right. destruct Hout as [[Hgpu ->] | [Hgpu [d [-> Hd]]]].
    + exists [], ranked. split; [auto|]. apply run_eq; try reflexivity.
      cbn. by rewrite <- ?app_assoc.
    + exists [CudaSetDevice d; ModelCuda d], (set_root_gpu d ranked).
      split; [right; eauto|]. apply run_eq; try reflexivity.
      cbn. by rewrite <- ?app_assoc.
Qed.

(** ** The last-weights path *)

Lemma starts_with_ckpt_prefix (s : string) :
  Py.starts_with_ckpt s = String.prefix "ckpt" s.
Proof.
  destruct s as [|a1 s]; [reflexivity|].
  destruct a1 as [[] [] [] [] [] [] [] []]; try reflexivity.
  destruct s as [|a2 s]; [reflexivity|].
  destruct a2 as [[] [] [] [] [] [] [] []]; try reflexivity.
  destruct s as [|a3 s]; [reflexivity|].
  destruct a3 as [[] [] [] [] [] [] [] []]; try reflexivity.
  destruct s as [|a4 s]; [reflexivity|].
  destruct a4 as [[] [] [] [] [] [] [] []]; try reflexivity.
  cbn [String.prefix Py.starts_with_ckpt].
  repeat match goal with
         | |- context [ascii_dec ?a ?b] => destruct (ascii_dec a b); [|congruence]
         end.
  by destruct s.
Qed.

Lemma prefix_ckpt_before_extension (r : string) :
  String.prefix "ckpt" (r +:+ ".ckpt") = String.prefix "ckpt" r.
Proof.
  destruct r as [|a1 r]; [reflexivity|].
  change (String a1 r +:+ ".ckpt") with (String a1 (r +:+ ".ckpt")).
  cbn [String.prefix]. destruct (ascii_dec "c" a1); [|reflexivity].
  destruct r as [|a2 r]; [reflexivity|].
  change (String a2 r +:+ ".ckpt") with (String a2 (r +:+ ".ckpt")).
  cbn [String.prefix]. destruct (ascii_dec "k" a2); [|reflexivity].
  destruct r as [|a3 r]; [reflexivity|].
  change (String a3 r +:+ ".ckpt") with (String a3 (r +:+ ".ckpt")).
  cbn [String.prefix]. destruct (ascii_dec "p" a3); [|reflexivity].
  destruct r as [|a4 r]; [reflexivity|].
  change (String a4 r +:+ ".ckpt") with (String a4 (r +:+ ".ckpt")).
  cbn [String.prefix]. destruct (ascii_dec "t" a4); [|reflexivity].
  by destruct r.
Qed.

Lemma contains_cons_false (sub : string) (c : ascii) (r : string) :
  contains sub (String c r) = false ->
  String.prefix sub (String c r) = false /\ contains sub r = false.
Proof. cbn [contains]. intros H. by apply orb_false_elim in H. Qed.

Lemma contains_false_prefix (sub s : string) :
  contains sub s = false -> String.prefix sub s = false.
Proof. destruct s; cbn [contains]; intros H; by apply orb_false_elim in H as [? _]. Qed.

(** Without the letters [ckpt] in it, a path is left as it is. *)
Lemma re_sub_ckpt_no_match (p : string) :
  contains "ckpt" p = false -> Py.re_sub_ckpt p = p.
Proof.
  unfold Py.re_sub_ckpt. induction p as [|c r IH]; [reflexivity|].
  intros H. apply contains_cons_false in H as [_ Hr].
  cbn [Py.re_sub_ckpt_from].
  rewrite starts_with_ckpt_prefix, (contains_false_prefix _ _ Hr), andb_false_r.
  by rewrite IH.
Qed.

(** With the letters [ckpt] only in the extension, the extension is what
    gets replaced. *)
Lemma re_sub_ckpt_extension (stem : string) :
  contains "ckpt" stem = false ->
  Py.re_sub_ckpt (stem +:+ ".ckpt") = stem +:+ ".tmp_end.ckpt".
Proof.
  unfold Py.re_sub_ckpt. induction stem as [|c r IH]; [reflexivity|].
  intros H. apply contains_cons_false in H as [_ Hr].
  change (String c r +:+ ".ckpt") with (String c (r +:+ ".ckpt")).
  cbn [Py.re_sub_ckpt_from].
  rewrite starts_with_ckpt_prefix, prefix_ckpt_before_extension,
    (contains_false_prefix _ _ Hr), andb_false_r.
  rewrite IH by done. reflexivity.
Qed.

(** X1. Fit-end transfer never raises and changes nothing but the trace.
    It makes no call at all unless a queue was given, the global rank is 0
    and the lower-cased backend name is one of ['ddp_spawn'], ['ddp_cpu'],
    ['tpu'].  Otherwise it warns, puts the best path and the results, and
    then either puts [None] (when testing, or without a non-empty best
    path) or saves the weights to the rewritten path and puts that
    path. *)
Theorem fit_end_transfer_protocol {B : Type} (mp_queue : option Queue)
    (results : Value) (s : State B) :
  let t := trainer s in
  let family := str_in (lower (distributed_backend t)) ["ddp_spawn"; "ddp_cpu"; "tpu"] in
  let best := tracked_best_path t in
  exists new,
    transfer_distrib_spawn_state_on_fit_end mp_queue results s
    = (log_events new s, inr tt)
    /\ ((new = [] /\ (mp_queue = None \/ global_rank t <> 0 \/ family = false))
        \/ exists q tail,
             mp_queue = Some q /\ global_rank t = 0 /\ family = true
             /\ new = ([RankZeroWarn "cleaning up ddp environment...";
                        QueuePut q (path_value best); QueuePut q results]
                       ++ tail)%list
             /\ ((tail = [QueuePut q VNone]
                  /\ (testing t = true \/ best = None \/ best = Some ""))
                 \/ exists p, best = Some p /\ p <> "" /\ testing t = false
                      /\ tail = [AtomicSave (Py.re_sub_ckpt p);
                                 QueuePut q (VStr (Py.re_sub_ckpt p))])).
Proof.
  intros t family best. exists (fit_end_events t mp_queue results).
  split; [apply transfer_run|].
  unfold fit_end_events. fold family best.
  destruct mp_queue as [q|]; [|left; auto].
  destruct family eqn:Hfamily; [|left; auto].
  destruct (global_rank t =? 0) eqn:Hrank; cbn [andb].
  - apply Z.eqb_eq in Hrank. right. exists q.
    destruct best as [p|] eqn:Hbest.
    + destruct (testing t) eqn:Htesting; cbn [negb andb].
      * eexists. repeat split; eauto.
      * destruct (String.eqb_spec p "") as [->|Hne]; cbn [negb].
        -- eexists. repeat split; eauto.
        -- eexists. repeat split; eauto 10.
    + eexists. repeat split; eauto.
  - apply Z.eqb_neq in Hrank. left. auto.
Qed.

(** X2. On rank 0 of a spawn-family run with a queue, outside testing,
    when the best path is [stem ++ ".ckpt"] and the letters [ckpt] do not
    occur in [stem], the weights are saved to [stem ++ ".tmp_end.ckpt"]
    and that path is the third message. *)
Theorem fit_end_last_path_replaces_extension {B : Type} (q : Queue)
    (results : Value) (s : State B) (stem : string) :
  str_in (lower (distributed_backend (trainer s))) ["ddp_spawn"; "ddp_cpu"; "tpu"] = true ->
  global_rank (trainer s) = 0 ->
  testing (trainer s) = false ->
  tracked_best_path (trainer s) = Some (stem +:+ ".ckpt") ->
  contains "ckpt" stem = false ->
  transfer_distrib_spawn_state_on_fit_end (Some q) results s
  = (log_events
       [RankZeroWarn "cleaning up ddp environment...";
        QueuePut q (VStr (stem +:+ ".ckpt")); QueuePut q results;
        AtomicSave (stem +:+ ".tmp_end.ckpt");
        QueuePut q (VStr (stem +:+ ".tmp_end.ckpt"))] s,
     inr tt).
Proof.
  intros Hfamily Hrank Htesting Hbest Hstem.
  rewrite transfer_run. unfold fit_end_events.
  rewrite Hfamily, Hrank, Hbest, Htesting, (re_sub_ckpt_extension stem Hstem).
  replace (String.eqb (stem +:+ ".ckpt") "") with false; [reflexivity|].
  symmetry. apply String.eqb_neq. by destruct stem.
Qed.

(** X3. Under the same conditions, when the letters [ckpt] do not occur
    in a non-empty best path at all, the weights are saved to the best
    path itself, which is sent twice. *)
Theorem fit_end_last_path_without_ckpt {B : Type} (q : Queue)
    (results : Value) (s : State B) (best : string) :
  str_in (lower (distributed_backend (trainer s))) ["ddp_spawn"; "ddp_cpu"; "tpu"] = true ->
  global_rank (trainer s) = 0 ->
  testing (trainer s) = false ->
  tracked_best_path (trainer s) = Some best ->
  best <> "" ->
  contains "ckpt" best = false ->
  transfer_distrib_spawn_state_on_fit_end (Some q) results s
  = (log_events
       [RankZeroWarn "cleaning up ddp environment...";
        QueuePut q (VStr best); QueuePut q results;
        AtomicSave best; QueuePut q (VStr best)] s,
     inr tt).
Proof.
  intros Hfamily Hrank Htesting Hbest Hne Hno.
  rewrite transfer_run. unfold fit_end_events.
  rewrite Hfamily, Hrank, Hbest, Htesting, (re_sub_ckpt_no_match best Hno).
  apply String.eqb_neq in Hne. by rewrite Hne.
Qed.

(** ** What [ddp_train] does and does not touch *)

Lemma same_settings_refl (t : Trainer) : same_settings t t.
Proof. by repeat split. Qed.

Lemma DDP_ddp_train_frame (h : Host) (process_idx : Z)
    (mp_queue : option Queue) (is_master : bool) (proc_offset : Z)
    (s : State DDP.Backend) :
  let s' := (DDP.ddp_train h process_idx mp_queue is_master proc_offset s).1 in
  self s' = self s /\ os_environ s' = os_environ s
  /\ sys_argv s' = sys_argv s
  /\ same_settings (trainer s) (trainer s')
  /\ exists new, trace s' = (trace s ++ new)%list.
Proof.
  intros s'. subst s'.
  destruct (DDP_ddp_train_cases h process_idx mp_queue is_master proc_offset s)
    as [(e & -> & _) | (bound & t3 & Ht3 & ->)];
    cbn [fst self os_environ sys_argv trainer trace].
  - repeat split; eauto.
  - destruct Ht3 as [(_ & _ & ->) | (_ & d & _ & -> & _)]; repeat split; eauto.
Qed.

Lemma DDP2_ddp_train_frame (h : Host) (process_idx : Z)
    (mp_queue : option Queue) (is_master : bool) (proc_offset : Z)
    (s : State DDP2.Backend) :
  let s' := (DDP2.ddp_train h process_idx mp_queue is_master proc_offset s).1 in
  self s' = self s /\ os_environ s' = os_environ s
  /\ sys_argv s' = sys_argv s
  /\ same_settings (trainer s) (trainer s')
  /\ exists new, trace s' = (trace s ++ new)%list.
Proof.
  intros s'. subst s'.
  destruct (DDP2_ddp_train_cases h process_idx mp_queue is_master proc_offset s)
    as [(e & -> & _) | (bound & t3 & Ht3 & ->)];
    cbn [fst self os_environ sys_argv trainer trace].
  - repeat split; eauto.
  - destruct Ht3 as [(_ & _ & ->) | (_ & d & _ & -> & _)]; repeat split; eauto.
Qed.

(** X4. Whether it returns or raises, [ddp_train] of either backend
    leaves the backend object, [os.environ] and [sys.argv] as they were
    and only appends to the record of collaborator calls.  Of the trainer
    it leaves alone the settings listed in [same_settings]: the topology
    ([node_rank], [num_nodes], [num_processes]), the flags
    [is_slurm_managing_tasks], [on_gpu] and [sync_batchnorm],
    [data_parallel_device_ids], [distributed_backend], [amp_backend],
    whether there is a progress bar, and [interactive_ddp_procs].  The
    attributes that [ddp_train] assigns are not among them. *)
Theorem ddp_train_leaves_process_alone (h : Host) (process_idx : Z)
    (mp_queue : option Queue) (is_master : bool) (proc_offset : Z)
    (s1 : State DDP.Backend) (s2 : State DDP2.Backend) :
  let s1' := (DDP.ddp_train h process_idx mp_queue is_master proc_offset s1).1 in
  let s2' := (DDP2.ddp_train h process_idx mp_queue is_master proc_offset s2).1 in
  (self s1' = self s1 /\ os_environ s1' = os_environ s1
   /\ sys_argv s1' = sys_argv s1
   /\ same_settings (trainer s1) (trainer s1')
   /\ exists new, trace s1' = (trace s1 ++ new)%list)
  /\ (self s2' = self s2 /\ os_environ s2' = os_environ s2
      /\ sys_argv s2' = sys_argv s2
      /\ same_settings (trainer s2) (trainer s2')
      /\ exists new, trace s2' = (trace s2 ++ new)%list).
Proof.
  split; [apply DDP_ddp_train_frame | apply DDP2_ddp_train_frame].
Qed.




(** X7. When [DDPBackend.ddp_train] returns, the train loop has run
    exactly once.  [configure_ddp] was called just before it with the
    one-element list holding [root_gpu] when the distributed backend is
    ['ddp'] or ['ddp_spawn'] and with [None] otherwise; on a GPU run
    [root_gpu] is the device bound earlier in the run.  The fit-end
    transfer follows the loop, and releasing the CUDA cache is the last
    call. *)
Theorem ddp_train_order_of_calls (h : Host) (process_idx : Z)
    (mp_queue : option Queue) (is_master : bool) (proc_offset : Z)
    (s : State DDP.Backend) (out : Value) :
  (DDP.ddp_train h process_idx mp_queue is_master proc_offset s).2 = inr out ->
  let s' := (DDP.ddp_train h process_idx mp_queue is_master proc_offset s).1 in
  let t' := trainer s' in
  exists before,
    trace s' = (trace s ++ before
                ++ [ConfigureDDP (ddp_device_ids t'); SetupTraining; TrainOrTest]
                ++ fit_end_events t' mp_queue (train_or_test h)
                ++ [CudaEmptyCache])%list
    /\ forallb (fun e => negb (is_train_or_test e)) before = true
    /\ forallb (fun e => negb (is_train_or_test e))
         (fit_end_events t' mp_queue (train_or_test h)) = true
    /\ (if on_gpu (trainer s)
        then exists d, root_gpu t' = Some d /\ CudaSetDevice d ∈ before
        else root_gpu t' = root_gpu (trainer s)).
Proof.
  intros Hok s' t'. subst t' s'. revert Hok.
  set (p := process_idx + proc_offset). set (t := trainer s).
  destruct (DDP_ddp_train_cases h process_idx mp_queue is_master proc_offset s)
    as [(e' & -> & _) | (bound & t3 & Ht3 & ->)];
    cbn [fst snd trainer trace]; [discriminate|]. intros _. fold p t.
  set (ranked := set_ranks p (node_rank t * num_processes t + p)
                   (num_nodes t * num_processes t) t) in *.
  exists ((progress_events t p ++ connect_events ranked ++ sync_events t)
          ++ bound ++ optimizer_events t3)%list.
  split; [by rewrite <- !app_assoc|].
  split.
  { rewrite !forallb_app, !andb_true_iff. repeat split.
    - unfold progress_events. by destruct (_ && _).
    - unfold sync_events. by destruct (sync_batchnorm t).
    - by destruct Ht3 as [(_ & -> & _) | (_ & d & -> & _)].
    - unfold optimizer_events. by destruct (amp_backend t3) as [[]|]. }
  split.
  { unfold fit_end_events. destruct mp_queue; [|done].
    destruct (_ && _); [|done].
    destruct (tracked_best_path t3); [|done]. by destruct (_ && _). }
  destruct Ht3 as [(Hgpu & _ & ->) | (Hgpu & d & -> & -> & _)];
    fold t in Hgpu; rewrite Hgpu; [reflexivity|].
  exists d. split; [reflexivity|].
  rewrite !elem_of_app, elem_of_cons. auto.
Qed.

(** X8. [DDP2Backend.ddp_train] that returns has handed
    [configure_ddp] every device id of [data_parallel_device_ids], whatever
    single device was bound, and has trained once after that; the trainer
    ends with local rank, global rank and world size at node
    granularity. *)
Theorem ddp2_train_uses_all_devices (h : Host) (process_idx : Z)
    (mp_queue : option Queue) (is_master : bool) (proc_offset : Z)
    (s : State DDP2.Backend) :
  (DDP2.ddp_train h process_idx mp_queue is_master proc_offset s).2 = inr tt ->
  let s' := (DDP2.ddp_train h process_idx mp_queue is_master proc_offset s).1 in
  let t' := trainer s' in
  local_rank t' = node_rank (trainer s)
  /\ exists before,
       trace s' = (trace s ++ before
                   ++ [ConfigureDDP (map Some <$> data_parallel_device_ids (trainer s));
                       SetupTraining; TrainOrTest]
                   ++ fit_end_events t' mp_queue (train_or_test h)
                   ++ [CudaEmptyCache])%list
       /\ forallb (fun e => negb (is_train_or_test e)) before = true.
Proof.
  intros Hok s' t'. subst t' s'. revert Hok.
  set (p := process_idx + proc_offset). set (t := trainer s).
  destruct (DDP2_ddp_train_cases h process_idx mp_queue is_master proc_offset s)
    as [(e' & -> & _) | (bound & t3 & Ht3 & ->)];
    cbn [fst snd trainer trace]; [discriminate|]. intros _. fold p t.
  set (ranked := set_ranks (node_rank t) (node_rank t) (num_nodes t) t) in *.
  split; [by destruct Ht3 as [(_ & _ & ->) | (_ & d & _ & -> & _)]|].
  exists ((progress_events t p ++ connect_events ranked)
          ++ bound ++ optimizer_events t3)%list.
  split.
  { rewrite <- !app_assoc.
    by destruct Ht3 as [(_ & _ & ->) | (_ & d & _ & -> & _)]. }
  rewrite !forallb_app, !andb_true_iff. repeat split.
  - unfold progress_events. by destruct (_ && _).
  - by destruct Ht3 as [(_ & -> & _) | (_ & d & -> & _)].
  - unfold optimizer_events. by destruct (amp_backend t3) as [[]|].
Qed.

(** ** [train] as a whole *)

Lemma DDP_train_unfold (h : Host) (s : State DDP.Backend) :
  DDP.train h s
  = match DDP.task_idx (self s) with
    | None => (s, inl Py.TypeError)
    | Some i =>
        if String.eqb (DDP.mode (self s)) "ddp" then
          match DDP.ddp_train h i None true 0 s with
          | (s', inl e) => (s', inl e)
          | (s', inr out) =>
              match os_environ s' !! "WORLD_SIZE" with
              | Some _ => (set_environ (delete "WORLD_SIZE" (os_environ s')) s', inr out)
              | None => (s', inl (Py.KeyError "WORLD_SIZE"))
              end
          end
        else
          match DDP.ddp_train h i None false 0 s with
          | (s', inl e) => (s', inl e)
          | (s', inr _) => (s', inr VNone)
          end
    end.
Proof.
  unfold DDP.train, DDP.task_idx_as_int, DDP.del_WORLD_SIZE,
    bind, get, ret, raise, modify. cbv beta.
  destruct (String.eqb (DDP.mode (self s)) "ddp"); cbv beta;
    (destruct (DDP.task_idx (self s)) as [i|]; [|reflexivity]).
  - destruct (DDP.ddp_train h i None true 0 s) as [s' [e|out]]; [reflexivity|].
    by destruct (os_environ s' !! "WORLD_SIZE").
  - by destruct (DDP.ddp_train h i None false 0 s) as [s' [e|out]].
Qed.

Lemma DDP2_train_unfold (h : Host) (s : State DDP2.Backend) :
  DDP2.train h s
  = match DDP2.task_idx (self s) with
    | None => (s, inl Py.TypeError)
    | Some i =>
        match DDP2.ddp_train h i None false 0 s with
        | (s', inl e) => (s', inl e)
        | (s', inr _) => (s', inr VNone)
        end
    end.
Proof.
  unfold DDP2.train, DDP2.task_idx_as_int, bind, get, ret, raise. cbv beta.
  destruct (DDP2.task_idx (self s)) as [i|]; [|reflexivity].
  by destruct (DDP2.ddp_train h i None false 0 s) as [s' [e|out]].
Qed.

(** A process that is not the master cannot fail in [ddp_train]. *)
Lemma DDP_ddp_train_worker_returns (h : Host) (process_idx : Z)
    (mp_queue : option Queue) (proc_offset : Z) (s : State DDP.Backend) :
  exists out,
    (DDP.ddp_train h process_idx mp_queue false proc_offset s).2 = inr out.
Proof.
  destruct (DDP_ddp_train_cases h process_idx mp_queue false proc_offset s)
    as [(e & _ & _ & Hm & _) | (bound & t3 & _ & ->)]; [discriminate|].
  eauto.
Qed.

Lemma DDP2_ddp_train_worker_returns (h : Host) (process_idx : Z)
    (mp_queue : option Queue) (proc_offset : Z) (s : State DDP2.Backend) :
  (DDP2.ddp_train h process_idx mp_queue false proc_offset s).2 = inr tt.
Proof.
  destruct (DDP2_ddp_train_cases h process_idx mp_queue false proc_offset s)
    as [(e & _ & _ & Hm & _) | (bound & t3 & _ & ->)]; [discriminate|].
  reflexivity.
Qed.

(** X9. [DDPBackend.train] never touches the backend object or
    [sys.argv].  In mode ['ddp'] a call that returns has removed
    [WORLD_SIZE], which must have been set, from [os.environ] and nothing
    else; a call that raises, and any call in another mode, leaves
    [os.environ] as it was. *)
Theorem train_and_the_environment (h : Host) (s : State DDP.Backend) :
  let r := DDP.train h s in
  self r.1 = self s /\ sys_argv r.1 = sys_argv s
  /\ match r.2 with
     | inr _ =>
         if String.eqb (DDP.mode (self s)) "ddp"
         then is_Some (os_environ s !! "WORLD_SIZE")
              /\ os_environ r.1 = delete "WORLD_SIZE" (os_environ s)
         else os_environ r.1 = os_environ s
     | inl _ => os_environ r.1 = os_environ s
     end.
Proof.
  intros r. subst r. rewrite DDP_train_unfold.
  destruct (DDP.task_idx (self s)) as [i|]; [|by repeat split].
  destruct (String.eqb (DDP.mode (self s)) "ddp").
  - destruct (DDP_ddp_train_frame h i None true 0 s) as (Hself & Henv & Hargv & _).
    destruct (DDP.ddp_train h i None true 0 s) as [s' [e|out]];
      cbn [fst snd] in *; [by repeat split|].
    destruct (os_environ s' !! "WORLD_SIZE") as [w|] eqn:Hw;
      cbn [fst snd self sys_argv os_environ set_environ]; [|by repeat split].
    rewrite <- Henv. repeat split; eauto.
  - destruct (DDP_ddp_train_frame h i None false 0 s) as (Hself & Henv & Hargv & _).
    destruct (DDP.ddp_train h i None false 0 s) as [s' [e|out]];
      cbn [fst snd] in *; by repeat split.
Qed.

Lemma bind_device_result_depends {B : Type} (process_idx : Z) (is_master : bool)
    (a b : State B) :
  on_gpu (trainer a) = on_gpu (trainer b) ->
  os_environ a !! "CUDA_VISIBLE_DEVICES" = os_environ b !! "CUDA_VISIBLE_DEVICES" ->
  local_rank (trainer a) = local_rank (trainer b) ->
  (bind_device process_idx is_master a).2 = (bind_device process_idx is_master b).2.
Proof.
  intros Hgpu Henv Hrank. unfold bind_device. rewrite !bind_get_run, Hgpu.
  destruct (on_gpu (trainer b)); [|reflexivity].
  destruct is_master; [|reflexivity].
  unfold bind, lift, Py.environ_getitem. rewrite Henv, Hrank.
  destruct (os_environ b !! "CUDA_VISIBLE_DEVICES") as [v|]; [|reflexivity].
  destruct (Py.getitem _ _) as [e|g]; [reflexivity|].
  by destruct (Py.int g).
Qed.

(** X10. In mode ['ddp'], after a call of [train] that returned, a second
    call of [train] runs the whole of [ddp_train] again, train loop
    included, and then raises [KeyError('WORLD_SIZE')]: the first call has
    deleted the variable. *)
Theorem train_twice_in_script_mode (h h' : Host) (s : State DDP.Backend)
    (out : Value) :
  DDP.mode (self s) = "ddp" ->
  (DDP.train h s).2 = inr out ->
  let s1 := (DDP.train h s).1 in
  let r := DDP.train h' s1 in
  r.2 = inl (Py.KeyError "WORLD_SIZE")
  /\ exists new, trace r.1 = (trace s1 ++ new)%list /\ TrainOrTest ∈ new.
Proof.
  intros Hmode Hfirst s1 r. subst r s1. revert Hfirst.
  rewrite (DDP_train_unfold h s), Hmode.
  change (String.eqb "ddp" "ddp") with true. cbv iota.
  destruct (DDP.task_idx (self s)) as [i|] eqn:Htask; [|discriminate].
  pose proof (DDP_ddp_train_frame h i None true 0 s) as (Hself & Henv & _ & Hset & _).
  pose proof (DDP_ddp_train_events h i None true 0 s) as Hrun. cbv zeta in Hrun.
  pose proof (DDP_ddp_train_trainer h i None true 0 s) as Htr. cbv zeta in Htr.
  destruct (DDP.ddp_train h i None true 0 s) as [s' [e|out0]] eqn:Hfst;
    [discriminate|].
  cbn [fst snd] in *.
  destruct (os_environ s' !! "WORLD_SIZE") as [w|] eqn:Hw; [|discriminate].
  intros _. cbn [fst snd].
  set (s1 := set_environ (delete "WORLD_SIZE" (os_environ s')) s').
  rewrite (DDP_train_unfold h' s1).
  replace (DDP.task_idx (self s1)) with (Some i)
    by (subst s1; cbn; by rewrite Hself).
  replace (DDP.mode (self s1)) with "ddp"
    by (subst s1; cbn; by rewrite Hself).
  change (String.eqb "ddp" "ddp") with true. cbv iota.
  rewrite (DDP_ddp_train_events h' i None true 0 s1). cbv zeta.
  match goal with
  | |- context [bind_device ?p ?m ?st] =>
      match type of Hrun with
      | context [bind_device p m ?st0] =>
          pose proof (bind_device_result_depends p m st st0) as Hsame;
          destruct (bind_device p m st0) as [sa [ea|[]]]; [discriminate|];
          destruct (bind_device p m st) as [sb [eb|[]]] eqn:Hsnd
      end
  end.
  - exfalso. cbn [snd] in Hsame.
    assert (Heq : @inl Py.Exc unit eb = inr tt); [|discriminate].
    apply Hsame.
    + subst s1. cbn. destruct Hset as (_ & _ & _ & _ & Hg & _).
      destruct Htr as [-> | [g ->]]; reflexivity.
    + subst s1. cbn. rewrite lookup_delete_ne by done. by rewrite Henv.
    + subst s1. cbn. reflexivity.
  - pose proof (bind_device_frame (i + 0) true
        (log_events
           (progress_events (trainer s1) (i + 0)
            ++ connect_events
                 (set_ranks (i + 0)
                    (node_rank (trainer s1) * num_processes (trainer s1) + (i + 0))
                    (num_nodes (trainer s1) * num_processes (trainer s1)) (trainer s1))
            ++ sync_events (trainer s1))
           (set_trainer
              (set_ranks (i + 0)
                 (node_rank (trainer s1) * num_processes (trainer s1) + (i + 0))
                 (num_nodes (trainer s1) * num_processes (trainer s1)) (trainer s1))
              s1))) as (_ & Henv2 & _).
    rewrite Hsnd in Henv2. cbn [fst] in Henv2.
    cbn [os_environ log_events set_trace].
    replace (os_environ sb !! "WORLD_SIZE") with (@None string)
      by (rewrite Henv2; subst s1; cbn; by rewrite lookup_delete_eq).
    cbn [fst snd]. split; [reflexivity|].
    pose proof (bind_device_outcome (i + 0) true
        (log_events
           (progress_events (trainer s1) (i + 0)
            ++ connect_events
                 (set_ranks (i + 0)
                    (node_rank (trainer s1) * num_processes (trainer s1) + (i + 0))
                    (num_nodes (trainer s1) * num_processes (trainer s1)) (trainer s1))
            ++ sync_events (trainer s1))
           (set_trainer
              (set_ranks (i + 0)
                 (node_rank (trainer s1) * num_processes (trainer s1) + (i + 0))
                 (num_nodes (trainer s1) * num_processes (trainer s1)) (trainer s1))
              s1))) as Hout.
    rewrite Hsnd in Hout.
    destruct Hout as [[_ ->] | [_ [d [-> _]]]]; cbn [trace log_events set_trace set_trainer];
      eexists; (split; [rewrite <- !app_assoc; reflexivity|]);
      rewrite !elem_of_app, !elem_of_cons; auto 20.
Qed.

(** ** From the environment to the ranks *)

Lemma DDP_setup_resolves (h : Host) (s : State DDP.Backend) (var v : string) (n : Z) :
  (DDP.mode (self s) = "slurm_ddp" /\ var = "SLURM_LOCALID")
  \/ (DDP.mode (self s) = "torchelastic_ddp" /\ var = "LOCAL_RANK") ->
  os_environ s !! var = Some v ->
  Py.int v = inr n ->
  DDP.setup h s
  = (set_self {| DDP.task_idx := Some n;
                 DDP._has_spawned_children := DDP._has_spawned_children (self s);
                 DDP.mode := DDP.mode (self s) |} s, inr tt).
Proof.
  intros [[Hmode ->] | [Hmode ->]] Hvar Hint;
    unfold DDP.setup, DDP.__slurm_setup, DDP.__torchelastic_setup;
    rewrite bind_get_run, Hmode; cbn [String.eqb Ascii.eqb Bool.eqb];
    rewrite bind_get_run; unfold bind, lift, Py.environ_getitem;
    rewrite Hvar, Hint; unfold DDP.set_task_idx, modify; by rewrite Hmode.
Qed.

(** X11. Under SLURM and under the elastic launcher, [setup] followed by
    [train] of the per-device backend always returns [None], with the
    local rank read from [SLURM_LOCALID] (respectively [LOCAL_RANK]), the
    global rank [node_rank * num_processes + local_rank] and the world
    size [num_nodes * num_processes]; on a GPU run the device bound is the
    one whose index is the local rank. *)
Theorem launcher_rank_end_to_end (h : Host) (s : State DDP.Backend)
    (var v : string) (n : Z) :
  (DDP.mode (self s) = "slurm_ddp" /\ var = "SLURM_LOCALID")
  \/ (DDP.mode (self s) = "torchelastic_ddp" /\ var = "LOCAL_RANK") ->
  os_environ s !! var = Some v ->
  Py.int v = inr n ->
  let r := DDP.train h (DDP.setup h s).1 in
  let t := trainer s in
  let t' := trainer r.1 in
  r.2 = inr VNone
  /\ local_rank t' = n
  /\ global_rank t' = node_rank t * num_processes t + n
  /\ world_size t' = num_nodes t * num_processes t
  /\ root_gpu t' = (if on_gpu t then Some n else root_gpu t).
Proof.
  intros Hmode Hvar Hint r t t'. subst t' r.
  rewrite (DDP_setup_resolves h s var v n Hmode Hvar Hint). cbn [fst].
  rewrite DDP_train_unfold. cbn [self set_self DDP.task_idx DDP.mode].
  replace (String.eqb (DDP.mode (self s)) "ddp") with false
    by (destruct Hmode as [[-> _] | [-> _]]; reflexivity).
  match goal with
  | |- context [DDP.ddp_train h n None false 0 ?st] =>
      destruct (DDP_ddp_train_cases h n None false 0 st)
        as [(e & _ & _ & Hm & _) | (bound & t3 & Ht3 & ->)]; [discriminate|]
  end.
  cbn [fst snd trainer set_self] in *. fold t in Ht3 |- *.
  rewrite Z.add_0_r in Ht3.
  destruct Ht3 as [(Hgpu & _ & ->) | (Hgpu & d & _ & -> & Hd)]; rewrite Hgpu.
  - by repeat split.
  - cbn in Hd. subst d. by repeat split.
Qed.

Lemma DDP2_setup_resolves (s : State DDP2.Backend) (v : string) (n : Z) :
  os_environ s !! (if is_slurm_managing_tasks (trainer s)
                   then "SLURM_LOCALID" else "LOCAL_RANK") = Some v ->
  Py.int v = inr n ->
  DDP2.setup s = (set_self {| DDP2.task_idx := Some n |} s, inr tt).
Proof.
  intros Hvar Hint. revert Hvar. unfold DDP2.setup, DDP2._resolve_task_idx.
  rewrite bind_get_run.
  destruct (is_slurm_managing_tasks (trainer s)); intros Hvar.
  - unfold bind, lift, Py.environ_getitem. by rewrite Hvar, Hint.
  - unfold and_then, Py.environ_getitem. by rewrite Hvar, Hint.
Qed.

(** X12. In the whole-node backend, [setup] followed by [train] always
    returns [None].  The local id read from [SLURM_LOCALID] (under SLURM)
    or [LOCAL_RANK] (otherwise) only picks the device on a GPU run; local
    rank and global rank are both the node rank, and the world size is
    the number of nodes. *)
Theorem node_rank_end_to_end (h : Host) (s : State DDP2.Backend)
    (v : string) (n : Z) :
  os_environ s !! (if is_slurm_managing_tasks (trainer s)
                   then "SLURM_LOCALID" else "LOCAL_RANK") = Some v ->
  Py.int v = inr n ->
  let r := DDP2.train h (DDP2.setup s).1 in
  let t := trainer s in
  let t' := trainer r.1 in
  r.2 = inr VNone
  /\ local_rank t' = node_rank t
  /\ global_rank t' = node_rank t
  /\ world_size t' = num_nodes t
  /\ root_gpu t' = (if on_gpu t then Some n else root_gpu t).
Proof.
  intros Hvar Hint r t t'. subst t' r.
  rewrite (DDP2_setup_resolves s v n Hvar Hint). cbn [fst].
  rewrite DDP2_train_unfold. cbn [self set_self DDP2.task_idx].
  match goal with
  | |- context [DDP2.ddp_train h n None false 0 ?st] =>
      destruct (DDP2_ddp_train_cases h n None false 0 st)
        as [(e & _ & _ & Hm & _) | (bound & t3 & Ht3 & ->)]; [discriminate|]
  end.
  cbn [fst snd trainer set_self] in *. fold t in Ht3 |- *.
  rewrite Z.add_0_r in Ht3.
  destruct Ht3 as [(Hgpu & _ & ->) | (Hgpu & d & _ & -> & Hd)]; rewrite Hgpu.
  - by repeat split.
  - cbn in Hd. subst d. by repeat split.
Qed.

(** X13. Neither backend can train while the task index is still
    [None]: [train] raises [TypeError] before it has changed anything.
    A per-device backend built with a mode other than ['ddp'],
    ['slurm_ddp'] and ['torchelastic_ddp'] stays there: its [setup]
    returns with the task index still [None], and the [train] that
    follows raises [TypeError]. *)
Theorem train_needs_the_task_index (h : Host) (s1 : State DDP.Backend)
    (s2 : State DDP2.Backend) :
  DDP.task_idx (self s1) = None ->
  DDP2.task_idx (self s2) = None ->
  DDP.train h s1 = (s1, inl Py.TypeError)
  /\ DDP2.train h s2 = (s2, inl Py.TypeError)
  /\ (str_in (DDP.mode (self s1)) ["ddp"; "slurm_ddp"; "torchelastic_ddp"] = false ->
      (DDP.setup h s1).2 = inr tt
      /\ DDP.task_idx (self (DDP.setup h s1).1) = None
      /\ (DDP.train h (DDP.setup h s1).1).2 = inl Py.TypeError).
Proof.
  intros H1 H2.
  assert (Htrain : DDP.train h s1 = (s1, inl Py.TypeError))
    by (by rewrite DDP_train_unfold, H1).
  split; [exact Htrain|].
  split; [by rewrite DDP2_train_unfold, H2|].
  intros Hmode.
  assert (Hsetup : DDP.setup h s1 = (s1, inr tt)).
  { unfold DDP.setup. rewrite bind_get_run.
    cbn [str_in existsb] in Hmode.
    apply orb_false_elim in Hmode as [-> Hmode].
    apply orb_false_elim in Hmode as [-> Hmode].
    apply orb_false_elim in Hmode as [-> _]. reflexivity. }
  rewrite Hsetup. cbn [fst snd]. by rewrite Htrain.
Qed.

(** X14. After a call of script-mode setup that returned and a call of
    [train], whatever its outcome, a further call of script-mode setup
    raises and changes nothing: the re-entry [RuntimeError] when
    [node_rank * num_processes] is 0, the [AssertionError] of the rank
    check otherwise, since [train] has moved the global rank there. *)
Theorem spawn_refused_after_training (h h' h'' : Host) (s s1 : State DDP.Backend) :
  DDP.__ddp_script_mode_setup h s = (s1, inr tt) ->
  let s2 := (DDP.train h' s1).1 in
  DDP.__ddp_script_mode_setup h'' s2
  = (s2, inl (if node_rank (trainer s) * num_processes (trainer s) =? 0
              then Py.RuntimeError DDP.reentry_message
              else Py.AssertionError)).
Proof.
  intros Hfirst s2.
  destruct (script_mode_setup_ok_inv h s) as (Hrank & Hfresh & script & arguments & Hargv);
    [by rewrite Hfirst|].
  rewrite (script_mode_setup_run h s script arguments Hrank Hfresh Hargv) in Hfirst.
  injection Hfirst as <-.
  match goal with s2 := (DDP.train h' ?st).1 |- _ => set (s1 := st) in * end.
  assert (Hself : self s2 = self s1 /\
                  global_rank (trainer s2)
                  = node_rank (trainer s) * num_processes (trainer s)).
  { subst s2. rewrite DDP_train_unfold.
    change (DDP.task_idx (self s1)) with (Some 0).
    assert (Hcase : forall m,
      let s' := (DDP.ddp_train h' 0 None m 0 s1).1 in
      self s' = self s1
      /\ global_rank (trainer s') = node_rank (trainer s) * num_processes (trainer s)).
    { intros m s'. subst s'. split; [apply DDP_ddp_train_frame|].
      destruct (DDP_ddp_train_trainer h' 0 None m 0 s1) as [-> | [g ->]];
        cbn; lia. }
    destruct (String.eqb (DDP.mode (self s1)) "ddp").
    - specialize (Hcase true). cbv zeta in Hcase.
      destruct (DDP.ddp_train h' 0 None true 0 s1) as [s' [e|out]]; [exact Hcase|].
      by destruct (os_environ s' !! "WORLD_SIZE").
    - specialize (Hcase false). cbv zeta in Hcase.
      by destruct (DDP.ddp_train h' 0 None false 0 s1) as [s' [e|out]]. }
  destruct Hself as [Hself Hglobal].
  rewrite guarded_setup_changes_nothing by (by rewrite Hself).
  by rewrite Hglobal.
Qed.

(** ** What script-mode setup exports *)

Lemma exported_environ_other (h : Host) (environ : gmap string string)
    (num_nodes : Z) (k : string) :
  str_in k ["MASTER_ADDR"; "MASTER_PORT"; "NODE_RANK"; "LOCAL_RANK";
            "PL_TRAINER_GPUS"; "WORLD_SIZE"] = false ->
  exported_environ h environ num_nodes !! k = environ !! k.
Proof.
  intros Hk. cbn [str_in existsb] in Hk.
  repeat (apply orb_false_elim in Hk as [?%String.eqb_neq Hk]).
  unfold exported_environ. by rewrite !lookup_insert_ne by done.
Qed.

(** X15. A call of script-mode setup that returns has written six
    variables, [MASTER_ADDR], [MASTER_PORT], [NODE_RANK], [LOCAL_RANK],
    [PL_TRAINER_GPUS] and [WORLD_SIZE], and has left every other variable,
    [CUDA_VISIBLE_DEVICES] among them, as it was. *)
Theorem script_mode_setup_writes_six_variables (h : Host) (s : State DDP.Backend)
    (script : string) (arguments : list string) (k : string) :
  global_rank (trainer s) = 0 ->
  DDP._has_spawned_children (self s) = false ->
  sys_argv s = script :: arguments ->
  let exported := os_environ (DDP.__ddp_script_mode_setup h s).1 in
  (str_in k ["MASTER_ADDR"; "MASTER_PORT"; "NODE_RANK"; "LOCAL_RANK";
             "PL_TRAINER_GPUS"; "WORLD_SIZE"] = true -> is_Some (exported !! k))
  /\ (str_in k ["MASTER_ADDR"; "MASTER_PORT"; "NODE_RANK"; "LOCAL_RANK";
                "PL_TRAINER_GPUS"; "WORLD_SIZE"] = false ->
      exported !! k = os_environ s !! k)
  /\ exported !! "CUDA_VISIBLE_DEVICES" = os_environ s !! "CUDA_VISIBLE_DEVICES".
Proof.
  intros Hrank Hfresh Hargv exported. subst exported.
  rewrite (script_mode_setup_environ h s script arguments Hrank Hfresh Hargv).
  split; [|split].
  - intros Hk. cbn [str_in existsb] in Hk. unfold exported_environ.
    repeat (apply orb_true_elim in Hk as [Hk%String.eqb_eq | Hk];
            [subst k; repeat (rewrite lookup_insert_ne by done);
             rewrite lookup_insert_eq; eauto|]).
    discriminate.
  - apply exported_environ_other.
  - by apply exported_environ_other.
Qed.

(** X16. The rendezvous address and port that script-mode setup exports
    are the ones supplied from outside when there are any, and
    [127.0.0.1] and the free port found otherwise; every child is started
    with the same two values. *)
Theorem script_mode_rendezvous (h : Host) (s : State DDP.Backend)
    (script : string) (arguments : list string) :
  global_rank (trainer s) = 0 ->
  DDP._has_spawned_children (self s) = false ->
  sys_argv s = script :: arguments ->
  let s' := (DDP.__ddp_script_mode_setup h s).1 in
  let address := default "127.0.0.1" (os_environ s !! "MASTER_ADDR") in
  let port := default (Py.str (find_free_network_port h)) (os_environ s !! "MASTER_PORT") in
  os_environ s' !! "MASTER_ADDR" = Some address
  /\ os_environ s' !! "MASTER_PORT" = Some port
  /\ forall p, p ∈ interactive_ddp_procs (trainer s') ->
       env p !! "MASTER_ADDR" = Some address /\ env p !! "MASTER_PORT" = Some port.
Proof.
  intros Hrank Hfresh Hargv s' address port. subst s'.
  rewrite (script_mode_setup_run h s script arguments Hrank Hfresh Hargv).
  cbn [fst os_environ trainer interactive_ddp_procs set_interactive_ddp_procs].
  assert (Ha : exported_environ h (os_environ s) (num_nodes (trainer s)) !! "MASTER_ADDR"
               = Some address).
  { unfold exported_environ.
    do 5 (rewrite lookup_insert_ne by done). by rewrite lookup_insert_eq. }
  assert (Hp : exported_environ h (os_environ s) (num_nodes (trainer s)) !! "MASTER_PORT"
               = Some port).
  { unfold exported_environ.
    do 4 (rewrite lookup_insert_ne by done). by rewrite lookup_insert_eq. }
  split; [done|]. split; [done|].
  intros p Hin. rewrite map_fmap in Hin.
  apply list_elem_of_fmap in Hin as (i & -> & _).
  cbn. by rewrite !lookup_insert_ne by done.
Qed.

(** X17. For a visible-device string that is not exactly one character
    long (unset counts as empty), script-mode setup forwards the string
    unchanged as [PL_TRAINER_GPUS] and exports as [WORLD_SIZE] the number
    of its comma-separated fields times the number of nodes. *)
Theorem script_mode_world_size_counts_fields (h : Host) (s : State DDP.Backend)
    (script : string) (arguments : list string) :
  global_rank (trainer s) = 0 ->
  DDP._has_spawned_children (self s) = false ->
  sys_argv s = script :: arguments ->
  let devices := default "" (os_environ s !! "CUDA_VISIBLE_DEVICES") in
  String.length devices <> 1%nat ->
  let exported := os_environ (DDP.__ddp_script_mode_setup h s).1 in
  exported !! "PL_TRAINER_GPUS" = Some devices
  /\ exported !! "WORLD_SIZE"
     = Some (Py.str (Z.of_nat (length (Py.split_comma devices))
                     * num_nodes (trainer s))).
Proof.
  intros Hrank Hfresh Hargv devices Hlen exported. subst exported.
  rewrite (script_mode_setup_environ h s script arguments Hrank Hfresh Hargv).
  unfold exported_environ.
  assert (Hfw : forwarded_gpu_ids (os_environ s) = devices).
  { unfold forwarded_gpu_ids, Py.environ_get, Py.len. fold devices.
    replace (Z.of_nat (String.length devices) =? 1) with false; [done|].
    symmetry. apply Z.eqb_neq. lia. }
  rewrite Hfw. split.
  - rewrite lookup_insert_ne by done. by rewrite lookup_insert_eq.
  - rewrite lookup_insert_eq.
    pose proof (split_comma_nonempty devices).
    by rewrite Z.max_r by lia.
Qed.

(** X18. In mode ['ddp'] on a GPU run, [setup] followed by [train] on a
    fresh rank-0 process binds the master to the first device of
    [CUDA_VISIBLE_DEVICES], leaves it with local rank 0 and global rank
    [node_rank * num_processes], returns the payload of the train loop
    exactly when that global rank is 0 and the distributed backend is
    neither ['ddp_spawn'] nor ['ddp_cpu'], keeps the children started by
    [setup], and ends with [WORLD_SIZE] removed from the environment. *)
Theorem script_master_end_to_end (h : Host) (s : State DDP.Backend)
    (script : string) (arguments : list string) (v g : string)
    (others : list string) (d : Z) :
  DDP.mode (self s) = "ddp" ->
  global_rank (trainer s) = 0 ->
  DDP._has_spawned_children (self s) = false ->
  sys_argv s = script :: arguments ->
  on_gpu (trainer s) = true ->
  os_environ s !! "CUDA_VISIBLE_DEVICES" = Some v ->
  Py.split_comma v = g :: others ->
  Py.int g = inr d ->
  let r := DDP.train h (DDP.setup h s).1 in
  let t := trainer s in
  let t' := trainer r.1 in
  r.2 = inr (if (node_rank t * num_processes t =? 0)
                && negb (str_in (distributed_backend t) ["ddp_spawn"; "ddp_cpu"])
             then train_or_test h else VNone)
  /\ local_rank t' = 0
  /\ global_rank t' = node_rank t * num_processes t
  /\ root_gpu t' = Some d
  /\ length (interactive_ddp_procs t') = Z.to_nat (num_processes t - 1)
  /\ os_environ r.1 !! "WORLD_SIZE" = None.
Proof.
  intros Hmode Hrank Hfresh Hargv Hgpu Hdev Hsplit Hint r t t'. subst t' r.
  assert (Hsetup : DDP.setup h s = DDP.__ddp_script_mode_setup h s).
  { unfold DDP.setup. by rewrite bind_get_run, Hmode. }
  rewrite Hsetup, (script_mode_setup_run h s script arguments Hrank Hfresh Hargv).
  cbn [fst].
  match goal with |- context [DDP.train h ?st] => set (s1 := st) end.
  rewrite DDP_train_unfold.
  change (DDP.task_idx (self s1)) with (Some 0).
  change (DDP.mode (self s1)) with (DDP.mode (self s)). rewrite Hmode.
  change (String.eqb "ddp" "ddp") with true. cbv iota.
  rewrite DDP_ddp_train_events. cbv zeta.
  match goal with
  | |- context [bind_device ?p true ?st] =>
      rewrite (bind_device_master p st v g d)
  end.
  - cbn [os_environ log_events set_trace set_trainer].
    replace (os_environ s1 !! "WORLD_SIZE") with
      (Some (Py.str (Z.max 1 (Z.of_nat (length (Py.split_comma
                       (forwarded_gpu_ids (os_environ s))))) * num_nodes (trainer s))))
      by (subst s1; cbn; unfold exported_environ; by rewrite lookup_insert_eq).
    cbn [fst snd trainer set_environ log_events set_trace set_trainer].
    unfold ddp_returned. subst s1.
    cbn [trainer global_rank local_rank root_gpu distributed_backend
         interactive_ddp_procs set_root_gpu set_ranks set_interactive_ddp_procs
         node_rank num_processes os_environ].
    fold t. rewrite !Z.add_0_r.
    repeat split.
    + unfold Py.range. by rewrite length_map, length_seqZ.
    + cbn [os_environ set_environ]. by rewrite lookup_delete_eq.
  - subst s1. cbn. exact Hgpu.
  - subst s1. cbn [os_environ log_events set_trace set_trainer].
    by rewrite exported_environ_other.
  - cbn [trainer log_events set_trace set_trainer local_rank set_ranks].
    rewrite Hsplit. change (0 + 0) with 0. apply getitem_head.
  - exact Hint.
Qed.

(** ** Failed rank resolution *)

(** X19. When rank resolution of the per-device backend fails, under
    SLURM or under the elastic launcher, the backend and the process are
    left as they were: an unset variable raises the [KeyError] naming it,
    and a value that is not an integer literal raises [ValueError].  The
    same holds for the whole-node backend under SLURM. *)
Theorem rank_resolution_failure_changes_nothing (h : Host) (s1 : State DDP.Backend)
    (s2 : State DDP2.Backend) (var : string) :
  (DDP.mode (self s1) = "slurm_ddp" /\ var = "SLURM_LOCALID")
  \/ (DDP.mode (self s1) = "torchelastic_ddp" /\ var = "LOCAL_RANK") ->
  is_slurm_managing_tasks (trainer s2) = true ->
  (forall e, (DDP.setup h s1).2 = inl e ->
     DDP.setup h s1 = (s1, inl e)
     /\ e = match os_environ s1 !! var with
            | None => Py.KeyError var
            | Some _ => Py.ValueError
            end)
  /\ (forall e, (DDP2.setup s2).2 = inl e ->
        DDP2.setup s2 = (s2, inl e)
        /\ e = match os_environ s2 !! "SLURM_LOCALID" with
               | None => Py.KeyError "SLURM_LOCALID"
               | Some _ => Py.ValueError
               end).
Proof.
  intros Hmode Hslurm.
  assert (Hint : forall v, Py.int v = inl Py.ValueError \/ exists n, Py.int v = inr n).
  { intros v. unfold Py.int. cbv zeta.
    match goal with
    | |- context [match ?x with Some _ => _ | None => _ end] => destruct x
    end; eauto. }
  split.
  - assert (Hsetup : DDP.setup h s1
                     = bind get (fun s =>
                         bind (lift (Py.environ_getitem (os_environ s) var)) (fun v =>
                           bind (lift (Py.int v)) DDP.set_task_idx)) s1).
    { unfold DDP.setup. rewrite bind_get_run.
      by destruct Hmode as [[-> ->] | [-> ->]]. }
    rewrite Hsetup, bind_get_run. unfold bind, lift, Py.environ_getitem.
    destruct (os_environ s1 !! var) as [v|]; [|by intros e [= <-]].
    destruct (Hint v) as [-> | [n ->]]; [by intros e [= <-]|].
    intros e. discriminate.
  - unfold DDP2.setup, DDP2._resolve_task_idx. rewrite bind_get_run, Hslurm.
    unfold bind, lift, Py.environ_getitem.
    destruct (os_environ s2 !! "SLURM_LOCALID") as [v|]; [|by intros e [= <-]].
    destruct (Hint v) as [-> | [n ->]]; [by intros e [= <-]|].
    intros e. discriminate.
Qed.

(** ** Which device a process binds *)

(** X20. On a GPU run of [ddp_train], a process that is not the master
    binds the device whose index is its process index, offset included,
    in both backends.  The master of the per-device backend binds the
    device whose id stands at that index in [CUDA_VISIBLE_DEVICES]. *)
Theorem device_binding_by_process_index (h : Host) (process_idx proc_offset : Z)
    (mp_queue : option Queue) (s1 : State DDP.Backend) (s2 : State DDP2.Backend) :
  on_gpu (trainer s1) = true ->
  on_gpu (trainer s2) = true ->
  let p := process_idx + proc_offset in
  let worker1 := (DDP.ddp_train h process_idx mp_queue false proc_offset s1).1 in
  let worker2 := (DDP2.ddp_train h process_idx mp_queue false proc_offset s2).1 in
  (local_rank (trainer worker1) = p
   /\ root_gpu (trainer worker1) = Some p
   /\ CudaSetDevice p ∈ trace worker1)
  /\ (root_gpu (trainer worker2) = Some p
      /\ CudaSetDevice p ∈ trace worker2)
  /\ forall (v g : string) (d : Z),
       os_environ s1 !! "CUDA_VISIBLE_DEVICES" = Some v ->
       Py.getitem (Py.split_comma v) p = inr g ->
       Py.int g = inr d ->
       let master1 := (DDP.ddp_train h process_idx mp_queue true proc_offset s1).1 in
       local_rank (trainer master1) = p
       /\ root_gpu (trainer master1) = Some d
       /\ CudaSetDevice d ∈ trace master1.
Proof.
  intros Hg1 Hg2 p worker1 worker2.
  assert (Hl1 : forall m, local_rank (trainer
            (DDP.ddp_train h process_idx mp_queue m proc_offset s1).1) = p).
  { intros m.
    destruct (DDP_ddp_train_trainer h process_idx mp_queue m proc_offset s1)
      as [H | [g H]]; rewrite H; reflexivity. }
  assert (Hw1 : root_gpu (trainer worker1) = Some p
                /\ CudaSetDevice p ∈ trace worker1).
  { destruct (DDP_ddp_train_binds h process_idx mp_queue false proc_offset p s1)
      as (Hroot & Hin & _); [|by split].
    intros s' He Hg Hl. apply bind_device_worker. by rewrite Hg. }
  assert (Hw2 : root_gpu (trainer worker2) = Some p
                /\ CudaSetDevice p ∈ trace worker2).
  { destruct (DDP2_ddp_train_binds h process_idx mp_queue false proc_offset p s2)
      as (Hroot & Hin & _); [|by split].
    intros s' He Hg Hl. apply bind_device_worker. by rewrite Hg. }
  split; [split; [apply Hl1 | exact Hw1]|].
  split; [exact Hw2|].
  intros v g d Hv Hi Hd master1.
  split; [apply Hl1|].
  destruct (DDP_ddp_train_binds h process_idx mp_queue true proc_offset d s1)
    as (Hroot & Hin & _); [|by split].
  intros s' He Hg Hl.
  eapply bind_device_master; rewrite ?He, ?Hg, ?Hl; eauto.
Qed.

(** ** Instances *)

Lemma fit_end_last_path_replaces_extension_witness :
  transfer_distrib_spawn_state_on_fit_end (Some (SimpleQueue 1)) (VObj (Py.Obj 7))
    (spawn_rank_0 false (Some "epoch=2.ckpt"))
  = (log_events
       [RankZeroWarn "cleaning up ddp environment...";
        QueuePut (SimpleQueue 1) (VStr "epoch=2.ckpt");
        QueuePut (SimpleQueue 1) (VObj (Py.Obj 7));
        AtomicSave "epoch=2.tmp_end.ckpt";
        QueuePut (SimpleQueue 1) (VStr "epoch=2.tmp_end.ckpt")]
       (spawn_rank_0 false (Some "epoch=2.ckpt")),
     inr tt).
Proof.
  apply (fit_end_last_path_replaces_extension (SimpleQueue 1) (VObj (Py.Obj 7))
           (spawn_rank_0 false (Some "epoch=2.ckpt")) "epoch=2"); reflexivity.
Defined.

Lemma fit_end_last_path_without_ckpt_witness :
  transfer_distrib_spawn_state_on_fit_end (Some (SimpleQueue 1)) (VObj (Py.Obj 7))
    (spawn_rank_0 false (Some "best.pt"))
  = (log_events
       [RankZeroWarn "cleaning up ddp environment...";
        QueuePut (SimpleQueue 1) (VStr "best.pt");
        QueuePut (SimpleQueue 1) (VObj (Py.Obj 7));
        AtomicSave "best.pt";
        QueuePut (SimpleQueue 1) (VStr "best.pt")]
       (spawn_rank_0 false (Some "best.pt")),
     inr tt).
Proof.
  apply (fit_end_last_path_without_ckpt (SimpleQueue 1) (VObj (Py.Obj 7))
           (spawn_rank_0 false (Some "best.pt")) "best.pt");
    try reflexivity. discriminate.
Defined.


Lemma ddp_train_order_of_calls_witness :
  let s' := (DDP.ddp_train sample_host 1 None false 0 fresh_master).1 in
  exists before,
    trace s'
    = (before ++ [ConfigureDDP (Some [Some 1]); SetupTraining; TrainOrTest]
       ++ [CudaEmptyCache])%list
    /\ CudaSetDevice 1 ∈ before.
Proof.
  intros s'.
  destruct (ddp_train_order_of_calls sample_host 1 None false 0 fresh_master VNone)
    as (before & Htrace & _ & _ & d & Hroot & Hin); [reflexivity|].
  exists before. split; [exact Htrace|].
  injection Hroot as <-. exact Hin.
Defined.

Lemma ddp2_train_uses_all_devices_witness :
  let s' := (DDP2.ddp_train sample_host 0 None false 0 node_worker).1 in
  exists before,
    trace s'
    = (before ++ [ConfigureDDP (Some [Some 0; Some 1]); SetupTraining; TrainOrTest]
       ++ [CudaEmptyCache])%list.
Proof.
  intros s'.
  destruct (ddp2_train_uses_all_devices sample_host 0 None false 0 node_worker)
    as (_ & before & Htrace & _); [reflexivity|].
  exists before. exact Htrace.
Defined.

Lemma train_twice_in_script_mode_witness :
  (DDP.train sample_host (DDP.train sample_host spawned_master).1).2
  = inl (Py.KeyError "WORLD_SIZE").
Proof.
  apply (train_twice_in_script_mode sample_host sample_host spawned_master
           (VObj (Py.Obj 7))); vm_compute; reflexivity.
Defined.

Lemma launcher_rank_end_to_end_witness :
  let t' := trainer (DDP.train sample_host (DDP.setup sample_host elastic_worker).1).1 in
  (DDP.train sample_host (DDP.setup sample_host elastic_worker).1).2 = inr VNone
  /\ local_rank t' = 2 /\ global_rank t' = 1 * 3 + 2 /\ world_size t' = 2 * 3
  /\ root_gpu t' = Some 2.
Proof.
  apply (launcher_rank_end_to_end sample_host elastic_worker "LOCAL_RANK" "2" 2);
    [right; split; reflexivity | reflexivity | reflexivity].
Defined.

Lemma node_rank_end_to_end_witness :
  let t' := trainer (DDP2.train sample_host (DDP2.setup node_under_slurm).1).1 in
  (DDP2.train sample_host (DDP2.setup node_under_slurm).1).2 = inr VNone
  /\ local_rank t' = 3 /\ global_rank t' = 3 /\ world_size t' = 4
  /\ root_gpu t' = Some 1.
Proof.
  apply (node_rank_end_to_end sample_host node_under_slurm "1" 1); reflexivity.
Defined.

Lemma train_needs_the_task_index_witness :
  DDP.train sample_host master_without_devices
  = (master_without_devices, inl Py.TypeError)
  /\ DDP2.train sample_host node_under_slurm = (node_under_slurm, inl Py.TypeError)
  /\ (DDP.train sample_host (DDP.setup sample_host mistyped_mode).1).2
     = inl Py.TypeError.
Proof.
  destruct (train_needs_the_task_index sample_host master_without_devices
              node_under_slurm) as (H1 & H2 & _); [reflexivity | reflexivity |].
  destruct (train_needs_the_task_index sample_host mistyped_mode
              node_under_slurm) as (_ & _ & H3); [reflexivity | reflexivity |].
  split; [exact H1|]. split; [exact H2|]. apply H3. reflexivity.
Defined.

Lemma spawn_refused_after_training_witness :
  let s2 := (DDP.train sample_host spawned_master).1 in
  DDP.__ddp_script_mode_setup sample_host s2
  = (s2, inl (Py.RuntimeError DDP.reentry_message)).
Proof.
  apply (spawn_refused_after_training sample_host sample_host sample_host
           fresh_master spawned_master).
  vm_compute. reflexivity.
Defined.

Lemma script_mode_setup_writes_six_variables_witness :
  os_environ (DDP.__ddp_script_mode_setup sample_host fresh_master).1
    !! "CUDA_VISIBLE_DEVICES" = Some "2,5".
Proof.
  destruct (script_mode_setup_writes_six_variables sample_host fresh_master
              "train.py" ["--gpus"; "2"] "PATH") as (_ & _ & H);
    [reflexivity | reflexivity | reflexivity |].
  exact H.
Defined.

Lemma script_mode_rendezvous_witness :
  os_environ spawned_master !! "MASTER_ADDR" = Some "127.0.0.1"
  /\ os_environ spawned_master !! "MASTER_PORT" = Some (Py.str 12910).
Proof.
  destruct (script_mode_rendezvous sample_host fresh_master "train.py" ["--gpus"; "2"])
    as (Ha & Hp & _); [reflexivity | reflexivity | reflexivity |].
  split; [exact Ha | exact Hp].
Defined.

Lemma script_mode_world_size_counts_fields_witness :
  os_environ spawned_master !! "PL_TRAINER_GPUS" = Some "2,5"
  /\ os_environ spawned_master !! "WORLD_SIZE" = Some (Py.str (2 * 1)).
Proof.
  apply (script_mode_world_size_counts_fields sample_host fresh_master
           "train.py" ["--gpus"; "2"]);
    [reflexivity | reflexivity | reflexivity | vm_compute; discriminate].
Defined.

Lemma script_master_end_to_end_witness :
  let r := DDP.train sample_host (DDP.setup sample_host fresh_master).1 in
  r.2 = inr (VObj (Py.Obj 7)) /\ root_gpu (trainer r.1) = Some 2
  /\ os_environ r.1 !! "WORLD_SIZE" = None.
Proof.
  intros r.
  destruct (script_master_end_to_end sample_host fresh_master "train.py"
              ["--gpus"; "2"] "2,5" "2" ["5"] 2)
    as (Hout & _ & _ & Hroot & _ & Hws); try reflexivity.
  split; [exact Hout|]. split; [exact Hroot | exact Hws].
Defined.

Lemma rank_resolution_failure_changes_nothing_witness :
  DDP.setup sample_host slurm_without_local_id
  = (slurm_without_local_id, inl (Py.KeyError "SLURM_LOCALID"))
  /\ DDP2.setup node_slurm_without_local_id
     = (node_slurm_without_local_id, inl (Py.KeyError "SLURM_LOCALID")).
Proof.
  destruct (rank_resolution_failure_changes_nothing sample_host
              slurm_without_local_id node_slurm_without_local_id "SLURM_LOCALID")
    as (H1 & H2); [left; split; reflexivity | reflexivity |].
  split.
  - apply (H1 (Py.KeyError "SLURM_LOCALID")). reflexivity.
  - apply (H2 (Py.KeyError "SLURM_LOCALID")). reflexivity.
Defined.

Lemma device_binding_by_process_index_witness :
  root_gpu (trainer (DDP.ddp_train sample_host 1 None false 0 fresh_master).1) = Some 1
  /\ root_gpu (trainer (DDP2.ddp_train sample_host 1 None false 0 (two_device_node 0)).1)
     = Some 1
  /\ root_gpu (trainer (DDP.ddp_train sample_host 1 None true 0 fresh_master).1) = Some 5.
Proof.
  destruct (device_binding_by_process_index sample_host 1 0 None fresh_master
              (two_device_node 0))
    as ((_ & Hw1 & _) & (Hw2 & _) & Hm); [reflexivity | reflexivity |].
  split; [exact Hw1|]. split; [exact Hw2|].
  destruct (Hm "2,5" "5" 5) as (_ & Hroot & _); [reflexivity .. | exact Hroot].
Defined.
